(** * find-imports analyzer: a shallow embedding and its properties

    The analyzer walks a parser-produced syntax tree (oxc, swc or babel
    shaped) and records, per import / re-export / dynamic import, which
    specifiers are taken from which source.  The trees are plain JavaScript
    objects, read with [.], [?.], [||] and [===]; the embedding keeps them
    that way: a tree is a [JsVal], a property read on [undefined] or [null]
    raises a [TypeError], and the visitor callbacks push onto the
    [transformedFile] accumulator that is threaded through the walk. *)

From Stdlib Require Import List String ZArith Bool Lia.
Import ListNotations.
Open Scope string_scope.
Open Scope list_scope.

(* ------------------------------------------------------------------ *)
(** ** JavaScript values and the operators the analyzer uses *)

Module Js.

(** A syntax tree as the parsers hand it over: objects keep their keys in
    insertion order, which is the order a generic walker meets them in. *)
#[warnings="-register-all"] Inductive JsVal : Type :=
| VUndef
| VNull
| VBool (b : bool)
| VNum (n : Z)
| VStr (s : string)
| VArr (elems : list JsVal)
| VObj (props : list (string * JsVal)).

(** Outcome of an expression that may throw.  Every exception the analyzer
    can raise by itself is a [TypeError] (a property read on a nullish
    value, or a call of something that is not a function). *)
Inductive Result (A : Type) : Type :=
| Ok (a : A)
| TypeError.
Arguments Ok {A} a.
Arguments TypeError {A}.

Definition bind {A B} (r : Result A) (k : A -> Result B) : Result B :=
  match r with
  | Ok a => k a
  | TypeError => TypeError
  end.

Definition fmap {A B} (f : A -> B) (r : Result A) : Result B :=
  bind r (fun a => Ok (f a)).

Fixpoint mapM {A B} (f : A -> Result B) (l : list A) : Result (list B) :=
  match l with
  | [] => Ok []
  | x :: xs => bind (f x) (fun y => bind (mapM f xs) (fun ys => Ok (y :: ys)))
  end.

(** Left-to-right threading of a state through a list of steps. *)
Fixpoint foldM {A S} (f : A -> S -> Result S) (l : list A) (s : S) : Result S :=
  match l with
  | [] => Ok s
  | x :: xs => bind (f x s) (foldM f xs)
  end.

Definition nullish (v : JsVal) : bool :=
  match v with
  | VUndef | VNull => true
  | _ => false
  end.

(** ToBoolean, on the values a syntax tree holds. *)
Definition truthy (v : JsVal) : bool :=
  match v with
  | VUndef | VNull => false
  | VBool b => b
  | VNum n => negb (Z.eqb n 0)
  | VStr s => negb (String.eqb s "")
  | VArr _ | VObj _ => true
  end.

Fixpoint lookup (k : string) (props : list (string * JsVal)) : JsVal :=
  match props with
  | [] => VUndef
  | (k', v) :: rest => if String.eqb k k' then v else lookup k rest
  end.

(** [v.k] for a [v] that is not nullish: own properties of objects, [length]
    of arrays and strings, [undefined] for everything else the analyzer asks
    for ([type], [value], [name], [source], ...). *)
Definition prop (v : JsVal) (k : string) : JsVal :=
  match v with
  | VObj props => lookup k props
  | VArr elems => if String.eqb k "length" then VNum (Z.of_nat (List.length elems)) else VUndef
  | VStr s => if String.eqb k "length" then VNum (Z.of_nat (String.length s)) else VUndef
  | _ => VUndef
  end.

(** [v.k]: throws on [undefined] and [null]. *)
Definition getProp (v : JsVal) (k : string) : Result JsVal :=
  if nullish v then TypeError else Ok (prop v k).

(** [v?.k]: short-circuits to [undefined] on [undefined] and [null]. *)
Definition optProp (v : JsVal) (k : string) : JsVal :=
  if nullish v then VUndef else prop v k.

(** [v[0]]. *)
Definition getIndex0 (v : JsVal) : Result JsVal :=
  match v with
  | VUndef | VNull => TypeError
  | VArr elems => Ok (List.hd VUndef elems)
  | VStr s => Ok (match s with
                  | EmptyString => VUndef
                  | String c _ => VStr (String c EmptyString)
                  end)
  | VObj props => Ok (lookup "0" props)
  | _ => Ok VUndef
  end.

(** [v === 'lit']. *)
Definition strictEqStr (v : JsVal) (lit : string) : bool :=
  match v with
  | VStr s => String.eqb s lit
  | _ => false
  end.

(** [a || b] on operands without effects. *)
Definition jsOr (a b : JsVal) : JsVal := if truthy a then a else b.

End Js.
Export Js.

Notation "x <- e ;; k" := (bind e (fun x => k))
  (at level 61, e at next level, right associativity).
Infix "|||" := jsOr (at level 50, left associativity).

(* ------------------------------------------------------------------ *)
(** ** Entries, configuration and the helpers imported from other files *)

(** [FindImportsAnalyzerEntry]: the object literal [{ importSpecifiers,
    source }], with [assertionType] set afterwards only when there is one.
    There is no further field.  The values are whatever the tree held, so
    they stay [JsVal]s. *)
Record Entry : Type := mkEntry {
  importSpecifiers : list JsVal;
  source : JsVal;
  assertionType : option JsVal
}.

(** [context.analyzerCfg] *)
Record AnalyzerCfg : Type := mkCfg {
  targetProjectPath : JsVal;
  keepInternalSources : JsVal
}.

(** [context] *)
Record Context : Type := mkContext {
  relativePath : JsVal;
  analyzerCfg : AnalyzerCfg
}.

(** [{ result: transformedFile }] *)
Record AnalyzerResult : Type := mkResult {
  result : list Entry
}.

(** The functions the analyzer imports from [../utils/] and [./helpers/],
    files that are not part of the sources at hand.  They are parameters of
    the development: [getAssertionType(node)], [isRelativeSourcePath(source)]
    and the rewriting of one source string that [normalizeSourcePaths]
    performs for a file at [relativePath] under [targetProjectPath] (it
    probes the file system, which is why [analyzeFile] is [async]). *)
Class Helpers : Type := {
  getAssertionType : JsVal -> JsVal;
  isRelativeSourcePath : JsVal -> bool;
  rewriteSource : JsVal -> JsVal -> JsVal -> JsVal
}.

(** A table of callbacks keyed by node type, as passed to the walker. *)
Definition Visitor (S : Type) : Type := string -> option (JsVal -> S -> Result S).

(** The callback registered for this node's [type], run on the state; a node
    without a callback leaves the state alone. *)
Definition enterNode {S} (visitor : Visitor S) (node : JsVal) (st : S) : Result S :=
  match prop node "type" with
  | VStr t => match visitor t with
              | Some callback => callback node st
              | None => Ok st
              end
  | _ => Ok st
  end.

(** Modelled from the spec: [oxcTraverse] lives in [../utils/oxc-traverse.js],
    which is not among the sources.  What the model takes from the spec is
    the order of the walk: exactly one depth-first, document-order walk that
    dispatches every node to the callback table, a node being entered before
    its children, the children taken in key order and arrays in index order.
    The failure policy the spec gives the walk (a malformed node is skipped,
    an input that is not a tree fails fast) is the walker's own and is not
    modelled: here an exception raised by a callback ends the walk, as an
    uncaught exception ends a call, and a value without nodes is walked
    without any callback being called. *)
Fixpoint oxcTraverse {S} (visitor : Visitor S) (v : JsVal) (st : S) : Result S :=
  match v with
  | VObj props =>
      st1 <- enterNode visitor v st ;;
      (fix children (ps : list (string * JsVal)) (s : S) : Result S :=
         match ps with
         | [] => Ok s
         | (_, child) :: ps' => s' <- oxcTraverse visitor child s ;; children ps' s'
         end) props st1
  | VArr elems =>
      (fix each (es : list JsVal) (s : S) : Result S :=
         match es with
         | [] => Ok s
         | e :: es' => s' <- oxcTraverse visitor e s ;; each es' s'
         end) elems st
  | _ => Ok st
  end.

(** Every object of the tree, parents before children, siblings in key and
    index order: the order of the source text. *)
Fixpoint nodesInOrder (v : JsVal) : list JsVal :=
  match v with
  | VObj props =>
      v :: (fix children (ps : list (string * JsVal)) : list JsVal :=
              match ps with
              | [] => []
              | (_, child) :: ps' => nodesInOrder child ++ children ps'
              end) props
  | VArr elems =>
      (fix each (es : list JsVal) : list JsVal :=
         match es with
         | [] => []
         | e :: es' => nodesInOrder e ++ each es'
         end) elems
  | _ => []
  end.

(* ------------------------------------------------------------------ *)
(** ** The analyzer *)

(** [isLiteral(node)] *)
Definition isLiteral (node : JsVal) : bool :=
  strictEqStr (optProp node "type") "Literal"
  || strictEqStr (optProp node "type") "StringLiteral".

(** [getSpecifierValue(s)]: the chain of [||].  Only the first read of [s]
    can throw; once it went through, [s] is not nullish and the later reads
    of [s.orig], [s.local] and [s.exported] go through as well. *)
Definition getSpecifierValue (s : JsVal) : Result JsVal :=
  imported <- getProp s "imported" ;;
  Ok (optProp imported "value"
      ||| optProp imported "name"
      ||| optProp (prop s "orig") "value"
      ||| optProp (prop s "orig") "name"
      ||| optProp (prop s "local") "value"
      ||| optProp (prop s "local") "name"
      ||| optProp (prop s "exported") "value"
      ||| optProp (prop s "exported") "name").

(** The arrow function mapped over [node.specifiers]. *)
Definition specifierTag (s : JsVal) : Result JsVal :=
  type <- getProp s "type" ;;
  if strictEqStr type "ImportDefaultSpecifier"
     || strictEqStr type "ExportDefaultSpecifier"
     || (strictEqStr type "ExportSpecifier"
         && (strictEqStr (optProp (prop s "exported") "value") "default"
             || strictEqStr (optProp (prop s "exported") "name") "default"))
  then Ok (VStr "[default]")
  else if strictEqStr type "ImportNamespaceSpecifier"
          || strictEqStr type "ExportNamespaceSpecifier"
  then Ok (VStr "[*]")
  else getSpecifierValue s.

(** [getImportOrReexportsSpecifiers(node)]: [(node.specifiers || []).map(...)].
    A truthy [specifiers] that is not an array has no [map] to call. *)
Definition getImportOrReexportsSpecifiers (node : JsVal) : Result (list JsVal) :=
  specifiers <- getProp node "specifiers" ;;
  match specifiers ||| VArr [] with
  | VArr elems => mapM specifierTag elems
  | _ => TypeError
  end.

(** The sources of dynamic imports: [isLiteral(e) ? e.value : '[variable]']. *)
Definition dynamicSource (e : JsVal) : Result JsVal :=
  if isLiteral e then getProp e "value" else Ok (VStr "[variable]").

Section Callbacks.
Context {helpers : Helpers}.

(** [const entry = { importSpecifiers, source }; const assertionType =
    getAssertionType(node); if (assertionType) entry.assertionType =
    assertionType;] *)
Definition entryWithAssertion (node : JsVal) (specs : list JsVal) (src : JsVal) : Entry :=
  let assertion := getAssertionType node in
  mkEntry specs src (if truthy assertion then Some assertion else None).

(** [ImportDeclaration({ node })] *)
Definition onImportDeclaration (node : JsVal) (transformedFile : list Entry)
  : Result (list Entry) :=
  specs <- getImportOrReexportsSpecifiers node ;;
  let specs := if Nat.eqb (List.length specs) 0 then specs ++ [VStr "[file]"] else specs in
  sourceNode <- getProp node "source" ;;
  src <- getProp sourceNode "value" ;;
  Ok (transformedFile ++ [entryWithAssertion node specs src]).

(** [ExportNamedDeclaration({ node })] *)
Definition onExportNamedDeclaration (node : JsVal) (transformedFile : list Entry)
  : Result (list Entry) :=
  sourceNode <- getProp node "source" ;;
  if negb (truthy sourceNode) then Ok transformedFile
  else
    specs <- getImportOrReexportsSpecifiers node ;;
    src <- getProp sourceNode "value" ;;
    Ok (transformedFile ++ [entryWithAssertion node specs src]).

(** [ExportAllDeclaration({ node })] *)
Definition onExportAllDeclaration (node : JsVal) (transformedFile : list Entry)
  : Result (list Entry) :=
  sourceNode <- getProp node "source" ;;
  if negb (truthy sourceNode) then Ok transformedFile
  else
    src <- getProp sourceNode "value" ;;
    Ok (transformedFile ++ [entryWithAssertion node [VStr "[*]"] src]).

(** [CallExpression({ node })]: dynamic imports as swc shapes them. *)
Definition onCallExpression (node : JsVal) (transformedFile : list Entry)
  : Result (list Entry) :=
  callee <- getProp node "callee" ;;
  if negb (strictEqStr (optProp callee "type") "Import") then Ok transformedFile
  else
    arguments <- getProp node "arguments" ;;
    argument0 <- getIndex0 arguments ;;
    dynamicImportExpression <- getProp argument0 "expression" ;;
    src <- dynamicSource dynamicImportExpression ;;
    Ok (transformedFile ++ [mkEntry [VStr "[default]"] src None]).

(** [ExpressionStatement({ node })]: dynamic imports as oxc shapes them. *)
Definition onExpressionStatement (node : JsVal) (transformedFile : list Entry)
  : Result (list Entry) :=
  expression <- getProp node "expression" ;;
  type <- getProp expression "type" ;;
  if negb (strictEqStr type "ImportExpression") then Ok transformedFile
  else
    sourceNode <- getProp expression "source" ;;
    src <- dynamicSource sourceNode ;;
    Ok (transformedFile ++ [mkEntry [VStr "[default]"] src None]).

(** The object literal handed to [oxcTraverse]. *)
Definition findImportsVisitor : Visitor (list Entry) := fun type =>
  if String.eqb type "ImportDeclaration" then Some onImportDeclaration
  else if String.eqb type "ExportNamedDeclaration" then Some onExportNamedDeclaration
  else if String.eqb type "ExportAllDeclaration" then Some onExportAllDeclaration
  else if String.eqb type "CallExpression" then Some onCallExpression
  else if String.eqb type "ExpressionStatement" then Some onExpressionStatement
  else None.

(** [findImportsPerAstFile(oxcAst)]: start from [const transformedFile = []]
    and return it after the walk.  The debug line sent to [LogService] has
    no bearing on the value and is left out. *)
Definition findImportsPerAstFile (oxcAst : JsVal) : Result (list Entry) :=
  oxcTraverse findImportsVisitor oxcAst [].

(** What a single node adds when it is met with an empty accumulator. *)
Definition visitNode (node : JsVal) : Result (list Entry) :=
  enterNode findImportsVisitor node [].

(** Modelled from the spec: [normalizeSourcePaths] lives in
    [./helpers/normalize-source-paths.js], which is not among the sources.
    The spec has it rewrite the [source] of each entry of the sequence, one
    entry after the other, leaving the rest of the entry as it is. *)
Definition normalizeSourcePaths (transformedFile : list Entry)
  (relPath targetPath : JsVal) : list Entry :=
  map (fun entry => mkEntry (importSpecifiers entry)
                            (rewriteSource relPath targetPath (source entry))
                            (assertionType entry))
      transformedFile.

(** [FindImportsSwcAnalyzer.analyzeFile(oxcAst, context)].  The [await] is
    the only suspension point and nothing else runs in between, so the
    promise is modelled by its outcome. *)
Definition analyzeFile (oxcAst : JsVal) (context : Context) : Result AnalyzerResult :=
  transformedFile <- findImportsPerAstFile oxcAst ;;
  let transformedFile :=
    normalizeSourcePaths transformedFile (relativePath context)
                         (targetProjectPath (analyzerCfg context)) in
  let transformedFile :=
    if negb (truthy (keepInternalSources (analyzerCfg context)))
    then filter (fun entry => negb (isRelativeSourcePath (source entry))) transformedFile
    else transformedFile in
  Ok (mkResult transformedFile).

End Callbacks.

(** [get config()]: the defaults, overridden by the keys of [_customConfig]
    that are present. *)
Definition config (customConfig : list (string * JsVal)) : AnalyzerCfg :=
  let pick key default :=
    if existsb (fun kv => String.eqb key (fst kv)) customConfig
    then lookup key customConfig else default in
  mkCfg (pick "targetProjectPath" VNull) (pick "keepInternalSources" (VBool false)).

(* ------------------------------------------------------------------ *)
(** ** One instance of the imported helpers *)

(** Modelled from the spec: [getAssertionType] is not among the sources.  The
    spec says that the type tag of a declaration's import-attribute clause
    (e.g. ["json"]) is attached when the clause is present; here the clause
    is the node's [attributes] array and the tag the [value.value] of its
    first element, [undefined] when there is none. *)
Definition specGetAssertionType (node : JsVal) : JsVal :=
  match optProp node "attributes" with
  | VArr (attribute :: _) => optProp (optProp attribute "value") "value"
  | _ => VUndef
  end.

(** Modelled from the spec: [isRelativeSourcePath] is not among the sources.
    The glossary calls a module reference relative when it begins with [./]
    or [../]. *)
Definition specIsRelativeSourcePath (src : JsVal) : bool :=
  match src with
  | VStr s => String.prefix "./" s || String.prefix "../" s
  | _ => false
  end.

(** Modelled from the spec: with [targetProjectPath] set to [null] the
    root-relative rewriting is disabled and a source stays as written; the
    instance covers that configuration only. *)
Definition specRewriteSource (relPath targetPath src : JsVal) : JsVal := src.

Definition specHelpers : Helpers :=
  {| getAssertionType := specGetAssertionType;
     isRelativeSourcePath := specIsRelativeSourcePath;
     rewriteSource := specRewriteSource |}.

(** [context] with the default configuration but for [keepInternalSources]. *)
Definition ctxKeep (keep : bool) : Context :=
  mkContext (VStr "src/file.js") (mkCfg VNull (VBool keep)).

(* ------------------------------------------------------------------ *)
(** ** Syntax trees as the parsers shape them *)

Module Oxc.
(** ESTree shapes, as oxc (and babel, up to literals) produce them. *)

Definition identifier (name : string) : JsVal :=
  VObj [("type", VStr "Identifier"); ("name", VStr name)].

Definition literal (value : string) : JsVal :=
  VObj [("type", VStr "Literal"); ("value", VStr value)].

Definition importSpecifier (imported local : JsVal) : JsVal :=
  VObj [("type", VStr "ImportSpecifier"); ("imported", imported); ("local", local)].

Definition importDefaultSpecifier (local : JsVal) : JsVal :=
  VObj [("type", VStr "ImportDefaultSpecifier"); ("local", local)].

Definition importNamespaceSpecifier (local : JsVal) : JsVal :=
  VObj [("type", VStr "ImportNamespaceSpecifier"); ("local", local)].

Definition exportSpecifier (local exported : JsVal) : JsVal :=
  VObj [("type", VStr "ExportSpecifier"); ("local", local); ("exported", exported)].

(** [rest] holds whatever else the parser attaches ([attributes], [start],
    [end], ...). *)
Definition importDeclaration (specifiers : list JsVal) (src : JsVal)
  (rest : list (string * JsVal)) : JsVal :=
  VObj (("type", VStr "ImportDeclaration") :: ("specifiers", VArr specifiers)
        :: ("source", src) :: rest).

Definition exportNamedDeclaration (declaration : JsVal) (specifiers : list JsVal)
  (src : JsVal) (rest : list (string * JsVal)) : JsVal :=
  VObj (("type", VStr "ExportNamedDeclaration") :: ("declaration", declaration)
        :: ("specifiers", VArr specifiers) :: ("source", src) :: rest).

Definition exportAllDeclaration (exported src : JsVal)
  (rest : list (string * JsVal)) : JsVal :=
  VObj (("type", VStr "ExportAllDeclaration") :: ("exported", exported)
        :: ("source", src) :: rest).

Definition importExpression (src : JsVal) : JsVal :=
  VObj [("type", VStr "ImportExpression"); ("source", src); ("options", VNull)].

Definition expressionStatement (expression : JsVal) : JsVal :=
  VObj [("type", VStr "ExpressionStatement"); ("expression", expression)].

Definition awaitExpression (argument : JsVal) : JsVal :=
  VObj [("type", VStr "AwaitExpression"); ("argument", argument)].

Definition callExpression (callee : JsVal) (arguments : list JsVal) : JsVal :=
  VObj [("type", VStr "CallExpression"); ("callee", callee);
        ("arguments", VArr arguments)].

(** [const name = init;] *)
Definition constDeclaration (name : string) (init : JsVal) : JsVal :=
  VObj [("type", VStr "VariableDeclaration"); ("kind", VStr "const");
        ("declarations",
         VArr [VObj [("type", VStr "VariableDeclarator");
                     ("id", identifier name); ("init", init)]])].

Definition program (body : list JsVal) : JsVal :=
  VObj [("type", VStr "Program"); ("body", VArr body);
        ("sourceType", VStr "module")].

End Oxc.

Module Swc.
(** The shapes swc produces where they differ: names sit in [value], a
    specifier that is not renamed has [imported: null] or [exported: null],
    and a dynamic import is a call whose callee is an [Import] node and whose
    arguments are wrapped. *)

Definition identifier (name : string) : JsVal :=
  VObj [("type", VStr "Identifier"); ("value", VStr name)].

Definition stringLiteral (value : string) : JsVal :=
  VObj [("type", VStr "StringLiteral"); ("value", VStr value)].

Definition importSpecifier (local imported : JsVal) : JsVal :=
  VObj [("type", VStr "ImportSpecifier"); ("local", local); ("imported", imported)].

Definition exportSpecifier (orig exported : JsVal) : JsVal :=
  VObj [("type", VStr "ExportSpecifier"); ("orig", orig); ("exported", exported)].

Definition importCall (arguments : list JsVal) : JsVal :=
  VObj [("type", VStr "CallExpression"); ("callee", VObj [("type", VStr "Import")]);
        ("arguments", VArr arguments)].

Definition argument (expression : JsVal) : JsVal :=
  VObj [("spread", VNull); ("expression", expression)].

End Swc.

(** A file with every kind of declaration:
<<
import a, { b as c } from 'pkg-a';
export { d } from './d.js';
export * from 'pkg-e';
import('./f.js');
import './g.js';
export const h = 1;
>> *)
Definition mixedFile : JsVal :=
  Oxc.program
    [ Oxc.importDeclaration
        [Oxc.importDefaultSpecifier (Oxc.identifier "a");
         Oxc.importSpecifier (Oxc.identifier "b") (Oxc.identifier "c")]
        (Oxc.literal "pkg-a") [];
      Oxc.exportNamedDeclaration VNull
        [Oxc.exportSpecifier (Oxc.identifier "d") (Oxc.identifier "d")]
        (Oxc.literal "./d.js") [];
      Oxc.exportAllDeclaration VNull (Oxc.literal "pkg-e") [];
      Oxc.expressionStatement (Oxc.importExpression (Oxc.literal "./f.js"));
      Oxc.importDeclaration [] (Oxc.literal "./g.js") [];
      Oxc.exportNamedDeclaration (Oxc.constDeclaration "h" (VObj [("type", VStr "Literal"); ("value", VNum 1)]))
        [] VNull [] ].

(** What [analyzeFile] does to the entries once the walk is over. *)
Definition postProcess {helpers : Helpers} (context : Context) (entries : list Entry)
  : list Entry :=
  let normalized :=
    normalizeSourcePaths entries (relativePath context)
                         (targetProjectPath (analyzerCfg context)) in
  if truthy (keepInternalSources (analyzerCfg context)) then normalized
  else filter (fun entry => negb (isRelativeSourcePath (source entry))) normalized.

(** A declaration that lacks what its callback reads without a guard: an
    import declaration whose [source] is [undefined] or [null], or a call
    with an [Import] callee and nothing at [arguments[0]]. *)
Definition malformedDeclaration (node : JsVal) : bool :=
  (strictEqStr (prop node "type") "ImportDeclaration"
   && nullish (prop node "source"))
  || (strictEqStr (prop node "type") "CallExpression"
      && strictEqStr (optProp (prop node "callee") "type") "Import"
      && match getIndex0 (prop node "arguments") with
         | Ok argument0 => nullish argument0
         | TypeError => true
         end).

(** An import declaration that the parser would not produce: no [source]. *)
Definition importWithoutSource : JsVal :=
  VObj [("type", VStr "ImportDeclaration"); ("specifiers", VArr [])].

(** [export {} from 'pkg';] *)
Definition emptyReexportFile : JsVal :=
  Oxc.program [Oxc.exportNamedDeclaration VNull [] (Oxc.literal "pkg") []].

(** The nodes whose callback can do anything at all: the three declaration
    types, a call whose callee is an [Import] node, and an expression
    statement whose own expression is an [ImportExpression] (or is missing,
    in which case the callback throws). *)
Definition mayContribute (node : JsVal) : bool :=
  let type := prop node "type" in
  strictEqStr type "ImportDeclaration"
  || strictEqStr type "ExportNamedDeclaration"
  || strictEqStr type "ExportAllDeclaration"
  || (strictEqStr type "CallExpression"
      && strictEqStr (optProp (prop node "callee") "type") "Import")
  || (strictEqStr type "ExpressionStatement"
      && (nullish (prop node "expression")
          || strictEqStr (prop (prop node "expression") "type") "ImportExpression")).

(** Dynamic imports in positions other than a statement of their own:
<<
const m = import('./a.js');
await import('./b.js');
load(import('./c.js'));
>> *)
Definition nestedDynamicImports : JsVal :=
  Oxc.program
    [ Oxc.constDeclaration "m" (Oxc.importExpression (Oxc.literal "./a.js"));
      Oxc.expressionStatement
        (Oxc.awaitExpression (Oxc.importExpression (Oxc.literal "./b.js")));
      Oxc.expressionStatement
        (Oxc.callExpression (Oxc.identifier "load")
           [Oxc.importExpression (Oxc.literal "./c.js")]) ].

(** [DynamicImport node arg]: [node] is one of the two shapes the callbacks
    take for a dynamic import, and [arg] is its source argument. *)
Inductive DynamicImport : JsVal -> JsVal -> Prop :=
| ImportCall (node wrapper : JsVal) :
    prop node "type" = VStr "CallExpression" ->
    strictEqStr (optProp (prop node "callee") "type") "Import" = true ->
    getIndex0 (prop node "arguments") = Ok wrapper ->
    nullish wrapper = false ->
    DynamicImport node (prop wrapper "expression")
| ImportStatement (node : JsVal) :
    prop node "type" = VStr "ExpressionStatement" ->
    prop (prop node "expression") "type" = VStr "ImportExpression" ->
    DynamicImport node (prop (prop node "expression") "source").

(** A dynamic import that carries an attribute clause the helper instance
    reads as ["json"]. *)
Definition importCallWithAttributes : JsVal :=
  VObj [("type", VStr "CallExpression"); ("callee", VObj [("type", VStr "Import")]);
        ("arguments", VArr [Swc.argument (Swc.stringLiteral "./data.json")]);
        ("attributes",
         VArr [VObj [("key", Oxc.identifier "type"); ("value", Oxc.literal "json")]])].

(** The two parsers' shapes of [import { x } from s] and of
    [export { x } from s]. *)
Inductive Dialect : Type := OxcDialect | SwcDialect.

Definition namedImport (d : Dialect) (x s : string) (rest : list (string * JsVal))
  : JsVal :=
  match d with
  | OxcDialect =>
      Oxc.importDeclaration
        [Oxc.importSpecifier (Oxc.identifier x) (Oxc.identifier x)] (Oxc.literal s) rest
  | SwcDialect =>
      VObj (("type", VStr "ImportDeclaration")
            :: ("specifiers", VArr [Swc.importSpecifier (Swc.identifier x) VNull])
            :: ("source", Swc.stringLiteral s) :: rest)
  end.

Definition namedReexport (d : Dialect) (x s : string) (rest : list (string * JsVal))
  : JsVal :=
  match d with
  | OxcDialect =>
      Oxc.exportNamedDeclaration VNull
        [Oxc.exportSpecifier (Oxc.identifier x) (Oxc.identifier x)] (Oxc.literal s) rest
  | SwcDialect =>
      VObj (("type", VStr "ExportNamedDeclaration")
            :: ("specifiers", VArr [Swc.exportSpecifier (Swc.identifier x) VNull])
            :: ("source", Swc.stringLiteral s) :: rest)
  end.

(** *** The specifier tag, in words *)

Definition isDefaultSpecifier (s : JsVal) : bool :=
  strictEqStr (prop s "type") "ImportDefaultSpecifier"
  || strictEqStr (prop s "type") "ExportDefaultSpecifier"
  || (strictEqStr (prop s "type") "ExportSpecifier"
      && (strictEqStr (optProp (prop s "exported") "value") "default"
          || strictEqStr (optProp (prop s "exported") "name") "default")).

Definition isNamespaceSpecifier (s : JsVal) : bool :=
  strictEqStr (prop s "type") "ImportNamespaceSpecifier"
  || strictEqStr (prop s "type") "ExportNamespaceSpecifier".

(** The reads of the fallback chain, in order: imported, original, local and
    exported name, each as [value] and as [name]. *)
Definition nameAccessors (s : JsVal) : list JsVal :=
  flat_map (fun key => [optProp (prop s key) "value"; optProp (prop s key) "name"])
           ["imported"; "orig"; "local"; "exported"].

Definition isUndefined (v : JsVal) : bool :=
  match v with
  | VUndef => true
  | _ => false
  end.

(** The first value that is not [undefined], [undefined] when there is none. *)
Definition firstDefined (vs : list JsVal) : JsVal :=
  match find (fun v => negb (isUndefined v)) vs with
  | Some v => v
  | None => VUndef
  end.

(** The first truthy value, the last value when there is none. *)
Definition firstTruthy (vs : list JsVal) : JsVal :=
  match find truthy vs with
  | Some v => v
  | None => last vs VUndef
  end.

(** The tag as the specification words it: default, else namespace, else the
    first name of the chain that is not [undefined]. *)
Definition specifierTagAsClaimed (s : JsVal) : JsVal :=
  if isDefaultSpecifier s then VStr "[default]"
  else if isNamespaceSpecifier s then VStr "[*]"
  else firstDefined (nameAccessors s).

(** The same with the chain read as the code's [||] reads it. *)
Definition specifierTagByTruthiness (s : JsVal) : JsVal :=
  if isDefaultSpecifier s then VStr "[default]"
  else if isNamespaceSpecifier s then VStr "[*]"
  else firstTruthy (nameAccessors s).

(** The specifier of [import { "" as x } from 'm']: a string-literal module
    export name that is empty. *)
Definition emptyNameSpecifier : JsVal :=
  Oxc.importSpecifier (Oxc.literal "") (Oxc.identifier "x").

(** [import { imported as local } from ...] and [export { local as
    exported } from ...], in either parser's shape. *)
Definition renamedImportSpecifier (d : Dialect) (imported local : string) : JsVal :=
  match d with
  | OxcDialect => Oxc.importSpecifier (Oxc.identifier imported) (Oxc.identifier local)
  | SwcDialect => Swc.importSpecifier (Swc.identifier local) (Swc.identifier imported)
  end.

Definition renamedExportSpecifier (d : Dialect) (local exported : string) : JsVal :=
  match d with
  | OxcDialect => Oxc.exportSpecifier (Oxc.identifier local) (Oxc.identifier exported)
  | SwcDialect => Swc.exportSpecifier (Swc.identifier local) (Swc.identifier exported)
  end.

(** The three declaration types whose callbacks read [getAssertionType]. *)
Definition isStaticDeclaration (node : JsVal) : bool :=
  strictEqStr (prop node "type") "ImportDeclaration"
  || strictEqStr (prop node "type") "ExportNamedDeclaration"
  || strictEqStr (prop node "type") "ExportAllDeclaration".


(** The filter of [analyzeFile], by itself. *)
Definition dropInternalSources {helpers : Helpers} (entries : list Entry) : list Entry :=
  filter (fun entry => negb (isRelativeSourcePath (source entry))) entries.

(* ------------------------------------------------------------------ *)
(** ** Sequencing *)

Lemma bind_Ok {A B} (a : A) (k : A -> Result B) : bind (Ok a) k = k a.
Proof. reflexivity. Qed.

Lemma fmap_fmap {A B C} (f : A -> B) (g : B -> C) (r : Result A) :
  fmap g (fmap f r) = fmap (fun a => g (f a)) r.
Proof. destruct r; reflexivity. Qed.

Lemma foldM_app {A S} (f : A -> S -> Result S) (l1 l2 : list A) (s : S) :
  foldM f (l1 ++ l2) s = bind (foldM f l1 s) (foldM f l2).
Proof.
  revert s; induction l1 as [|x l1 IH]; intros s; simpl.
  - reflexivity.
  - destruct (f x s) as [s'|]; simpl; [apply IH | reflexivity].
Qed.

(** When every step only appends, the fold appends the concatenation of what
    each step yields on its own. *)
Lemma foldM_appending {A E} (f : A -> list E -> Result (list E)) :
  (forall x acc, f x acc = fmap (app acc) (f x [])) ->
  forall l acc,
    foldM f l acc = fmap (fun ess => acc ++ List.concat ess) (mapM (fun x => f x []) l).
Proof.
  intros Happ. induction l as [|x l IH]; intros acc; simpl.
  - now rewrite app_nil_r.
  - rewrite Happ. destruct (f x []) as [es|]; simpl; [|reflexivity].
    rewrite IH. destruct (mapM _ l) as [ess|]; simpl; [|reflexivity].
    now rewrite app_assoc.
Qed.

(** Steps that leave the state alone can be dropped from a fold. *)
Lemma foldM_filter {A S} (f : A -> S -> Result S) (keep : A -> bool) :
  (forall x s, keep x = false -> f x s = Ok s) ->
  forall l s, foldM f l s = foldM f (filter keep l) s.
Proof.
  intros Hskip. induction l as [|x l IH]; intros s; simpl.
  - reflexivity.
  - destruct (keep x) eqn:Hk; simpl.
    + destruct (f x s); simpl; auto.
    + rewrite (Hskip _ _ Hk). simpl. apply IH.
Qed.

(* ------------------------------------------------------------------ *)
(** ** The walk *)

(** The walk is the left-to-right fold of the callbacks over the nodes in
    document order. *)
Lemma oxcTraverse_nodes {S} (visitor : Visitor S) :
  forall v st, oxcTraverse visitor v st = foldM (enterNode visitor) (nodesInOrder v) st.
Proof.
  fix walk 1.
  intros [ | | b | n | s | elems | props] st; try reflexivity.
  - simpl. revert st.
    induction elems as [|e es IHes]; intros st; [reflexivity|].
    rewrite foldM_app, <- walk.
    destruct (oxcTraverse visitor e st) as [st'|]; simpl; [apply IHes | reflexivity].
  - cbn [oxcTraverse nodesInOrder foldM].
    destruct (enterNode visitor (VObj props) st) as [st1|]; simpl; [|reflexivity].
    generalize st1. clear st st1.
    induction props as [|[k child] ps IHps]; intros st; [reflexivity|].
    rewrite foldM_app, <- walk.
    destruct (oxcTraverse visitor child st) as [st'|]; simpl; [apply IHps | reflexivity].
Qed.

(* ------------------------------------------------------------------ *)
(** ** The callbacks only push *)

Ltac run_callback :=
  repeat match goal with
         | |- context [bind ?e _] => destruct e; simpl
         | |- context [if ?b then _ else _] => destruct b; simpl
         end;
  rewrite ?app_nil_l, ?app_nil_r; try reflexivity.

Lemma prop_string_not_nullish (node : JsVal) (key t : string) :
  prop node key = VStr t -> nullish node = false.
Proof. destruct node; simpl; try discriminate; reflexivity. Qed.

Lemma strictEqStr_true (v : JsVal) (lit : string) :
  strictEqStr v lit = true <-> v = VStr lit.
Proof.
  destruct v; simpl; split; try discriminate.
  - intros H. apply String.eqb_eq in H. now subst.
  - intros H. injection H as ->. apply String.eqb_refl.
Qed.

Section CallbackFacts.
Context {helpers : Helpers}.

Lemma onImportDeclaration_pushes node acc :
  onImportDeclaration node acc = fmap (app acc) (onImportDeclaration node []).
Proof. unfold onImportDeclaration. run_callback. Qed.

Lemma onExportNamedDeclaration_pushes node acc :
  onExportNamedDeclaration node acc = fmap (app acc) (onExportNamedDeclaration node []).
Proof. unfold onExportNamedDeclaration. run_callback. Qed.

Lemma onExportAllDeclaration_pushes node acc :
  onExportAllDeclaration node acc = fmap (app acc) (onExportAllDeclaration node []).
Proof. unfold onExportAllDeclaration. run_callback. Qed.

Lemma onCallExpression_pushes node acc :
  onCallExpression node acc = fmap (app acc) (onCallExpression node []).
Proof. unfold onCallExpression. run_callback. Qed.

Lemma onExpressionStatement_pushes node acc :
  onExpressionStatement node acc = fmap (app acc) (onExpressionStatement node []).
Proof. unfold onExpressionStatement. run_callback. Qed.

Lemma enterNode_pushes node acc :
  enterNode findImportsVisitor node acc = fmap (app acc) (visitNode node).
Proof.
  unfold visitNode, enterNode.
  destruct (prop node "type") as [ | | | | t | | ];
    try (simpl; now rewrite app_nil_r).
  unfold findImportsVisitor.
  repeat match goal with
         | |- context [if String.eqb t ?lit then _ else _] =>
             destruct (String.eqb t lit)
         end;
    auto using onImportDeclaration_pushes, onExportNamedDeclaration_pushes,
      onExportAllDeclaration_pushes, onCallExpression_pushes,
      onExpressionStatement_pushes.
  simpl; now rewrite app_nil_r.
Qed.

(** The entries of a file are the entries of its nodes, one node after the
    other in document order. *)
Lemma findImports_by_nodes ast :
  findImportsPerAstFile ast
  = fmap (@List.concat Entry) (mapM visitNode (nodesInOrder ast)).
Proof.
  unfold findImportsPerAstFile. rewrite oxcTraverse_nodes.
  rewrite (foldM_appending (enterNode findImportsVisitor)) by apply enterNode_pushes.
  fold visitNode.
  replace (fun x => enterNode findImportsVisitor x []) with visitNode by reflexivity.
  now destruct (mapM visitNode (nodesInOrder ast)).
Qed.

(** A node that is none of the shapes the callbacks react to leaves the
    accumulator as it is. *)
Lemma enterNode_skips node acc :
  mayContribute node = false -> enterNode findImportsVisitor node acc = Ok acc.
Proof.
  unfold mayContribute, enterNode. intros Hskip.
  destruct (prop node "type") as [ | | | | t | | ] eqn:Htype; try reflexivity.
  pose proof (prop_string_not_nullish _ _ _ Htype) as Hnode.
  unfold findImportsVisitor. simpl in Hskip.
  repeat match goal with
         | |- context [if String.eqb t ?lit then _ else _] =>
             destruct (String.eqb t lit) eqn:?
         end; simpl in Hskip; try discriminate; try reflexivity.
  - unfold onCallExpression, getProp. rewrite Hnode. simpl.
    apply orb_false_elim in Hskip as [Hcallee _]. now rewrite Hcallee.
  - unfold onExpressionStatement, getProp. rewrite Hnode. simpl.
    apply orb_false_elim in Hskip as [Hexpr Himport].
    rewrite Hexpr. simpl. now rewrite Himport.
Qed.

Lemma analyzeFile_postProcess ast context :
  analyzeFile ast context
  = fmap (fun entries => mkResult (postProcess context entries))
         (findImportsPerAstFile ast).
Proof.
  unfold analyzeFile, postProcess, fmap.
  destruct (findImportsPerAstFile ast); simpl; [|reflexivity].
  now destruct (truthy (keepInternalSources (analyzerCfg context))).
Qed.

Lemma filter_concat {A} (keep : A -> bool) (ls : list (list A)) :
  filter keep (List.concat ls) = List.concat (map (filter keep) ls).
Proof.
  induction ls as [|l ls IH]; simpl; [reflexivity|].
  now rewrite filter_app, IH.
Qed.

Lemma postProcess_concat context (ess : list (list Entry)) :
  postProcess context (List.concat ess)
  = List.concat (map (postProcess context) ess).
Proof.
  unfold postProcess, normalizeSourcePaths.
  destruct (truthy (keepInternalSources (analyzerCfg context))).
  - now rewrite concat_map.
  - now rewrite concat_map, filter_concat, map_map.
Qed.

End CallbackFacts.

(* ------------------------------------------------------------------ *)
(** ** Order of the entries *)

(** C8.  The entries come out in document order, all kinds of declaration
    together: what the walk returns is the concatenation, node after node in
    the order of the source text, of what each node's callback pushes; and
    the result of [analyzeFile] is the same concatenation of each node's
    entries once normalized and filtered.  Nothing is moved. *)
Theorem entries_in_document_order {helpers : Helpers} (ast : JsVal) (context : Context) :
  findImportsPerAstFile ast
  = fmap (@List.concat Entry) (mapM visitNode (nodesInOrder ast))
  /\ analyzeFile ast context
     = fmap (fun ess => mkResult (List.concat (map (postProcess context) ess)))
            (mapM visitNode (nodesInOrder ast)).
Proof.
  split; [apply findImports_by_nodes|].
  rewrite analyzeFile_postProcess, findImports_by_nodes, fmap_fmap.
  destruct (mapM visitNode (nodesInOrder ast)) as [ess|]; simpl; [|reflexivity].
  now rewrite postProcess_concat.
Qed.

Example mixedFile_entries :
  findImportsPerAstFile (helpers := specHelpers) mixedFile
  = Ok [ mkEntry [VStr "[default]"; VStr "b"] (VStr "pkg-a") None;
         mkEntry [VStr "d"] (VStr "./d.js") None;
         mkEntry [VStr "[*]"] (VStr "pkg-e") None;
         mkEntry [VStr "[default]"] (VStr "./f.js") None;
         mkEntry [VStr "[file]"] (VStr "./g.js") None ].
Proof. reflexivity. Qed.

(* ------------------------------------------------------------------ *)
(** ** Dynamic imports that are not a statement of their own *)

(** C10.  Only the nodes picked out by [mayContribute] add entries: the
    result of the walk is that of the same walk over those nodes alone.  A
    node of type [ImportExpression] is never one of them, wherever it sits;
    an expression statement is one only when its own [expression] is an
    [ImportExpression] (or is missing).  So a dynamic import in an
    initializer, under [await] or as a call argument adds no entry. *)
Theorem import_expression_only_as_statement {helpers : Helpers} :
  (forall ast,
      findImportsPerAstFile ast
      = fmap (@List.concat Entry)
             (mapM visitNode (filter mayContribute (nodesInOrder ast))))
  /\ (forall node,
         prop node "type" = VStr "ImportExpression" -> mayContribute node = false)
  /\ (forall stmt,
         prop stmt "type" = VStr "ExpressionStatement" ->
         mayContribute stmt = true ->
         nullish (prop stmt "expression") = true
         \/ prop (prop stmt "expression") "type" = VStr "ImportExpression").
Proof.
  repeat split.
  - intros ast. unfold findImportsPerAstFile.
    rewrite oxcTraverse_nodes.
    rewrite (foldM_filter _ mayContribute) by (intros; now apply enterNode_skips).
    rewrite (foldM_appending (enterNode findImportsVisitor)) by apply enterNode_pushes.
    replace (fun x => enterNode findImportsVisitor x []) with visitNode by reflexivity.
    now destruct (mapM visitNode _).
  - intros node Htype. unfold mayContribute. now rewrite Htype.
  - intros stmt Htype. unfold mayContribute. rewrite Htype. simpl.
    destruct (nullish (prop stmt "expression")); [now left|].
    simpl. intros H. right. now apply strictEqStr_true.
Qed.

Lemma import_expression_only_as_statement_witness :
  findImportsPerAstFile (helpers := specHelpers) nestedDynamicImports = Ok []
  /\ mayContribute (Oxc.importExpression (Oxc.literal "./a.js")) = false
  /\ (nullish (prop (Oxc.expressionStatement
                       (Oxc.importExpression (Oxc.literal "./f.js"))) "expression") = true
      \/ prop (prop (Oxc.expressionStatement
                       (Oxc.importExpression (Oxc.literal "./f.js"))) "expression") "type"
         = VStr "ImportExpression").
Proof.
  destruct (@import_expression_only_as_statement specHelpers) as [Hwalk [Hnode Hstmt]].
  split; [|split].
  - rewrite Hwalk. reflexivity.
  - apply Hnode. reflexivity.
  - apply Hstmt; reflexivity.
Defined.

(* ------------------------------------------------------------------ *)
(** ** Malformed declarations *)

(** X4.  The callback met at a malformed declaration, an import declaration
    whose source node is [undefined] or [null] or a call with an [Import]
    callee and nothing at [arguments[0]], does not return: the unguarded
    read of [node.source.value], or of [node.arguments[0].expression],
    throws a [TypeError] out of the callback, whatever the accumulator
    holds. *)
Theorem malformed_declaration_callback_throws {helpers : Helpers} (bad : JsVal) :
  malformedDeclaration bad = true ->
  forall acc, enterNode findImportsVisitor bad acc = TypeError.
Proof.
  unfold malformedDeclaration. intros Hbad acc.
  apply orb_true_iff in Hbad as [Himport | Hcall].
  - apply andb_true_iff in Himport as [Htype Hsource].
    apply strictEqStr_true in Htype.
    pose proof (prop_string_not_nullish _ _ _ Htype) as Hnode.
    unfold enterNode. rewrite Htype. simpl.
    unfold onImportDeclaration.
    destruct (getImportOrReexportsSpecifiers bad); simpl; [|reflexivity].
    unfold getProp. rewrite Hnode. simpl. now rewrite Hsource.
  - apply andb_true_iff in Hcall as [Hcall Hargument].
    apply andb_true_iff in Hcall as [Htype Hcallee].
    apply strictEqStr_true in Htype.
    pose proof (prop_string_not_nullish _ _ _ Htype) as Hnode.
    unfold enterNode. rewrite Htype. simpl.
    unfold onCallExpression, getProp. rewrite Hnode. simpl.
    rewrite Hcallee. simpl.
    destruct (getIndex0 (prop bad "arguments")) as [argument0|]; simpl; [|reflexivity].
    now rewrite Hargument.
Qed.

Lemma malformed_declaration_callback_throws_witness :
  enterNode (findImportsVisitor (helpers := specHelpers)) importWithoutSource
    [mkEntry [VStr "a"] (VStr "pkg-a") None]
  = TypeError
  /\ enterNode (findImportsVisitor (helpers := specHelpers)) (Swc.importCall []) []
     = TypeError.
Proof.
  split.
  - apply (@malformed_declaration_callback_throws specHelpers importWithoutSource).
    reflexivity.
  - apply (@malformed_declaration_callback_throws specHelpers (Swc.importCall [])).
    reflexivity.
Defined.

(* ------------------------------------------------------------------ *)
(** ** Specifier lists *)

(** C1 on a re-export without specifiers.  For [export {} from 'pkg'] the
    entry that [analyzeFile] returns has an empty [importSpecifiers]: the
    [ExportNamedDeclaration] callback lacks the [[file]] fallback that the
    [ImportDeclaration] callback has. *)
Theorem empty_reexport_has_no_specifier :
  analyzeFile (helpers := specHelpers) emptyReexportFile (ctxKeep false)
  = Ok (mkResult [mkEntry [] (VStr "pkg") None]).
Proof. reflexivity. Qed.

(** What does hold: the entry of an import declaration always has a
    specifier, [[file]] standing in for an empty list, and the entry of an
    export-all has exactly [[*]]. *)
Lemma import_entry_has_specifier {helpers : Helpers} (node : JsVal) (acc acc' : list Entry) :
  onImportDeclaration node acc = Ok acc' ->
  exists entry, acc' = acc ++ [entry] /\ importSpecifiers entry <> []
                /\ (getImportOrReexportsSpecifiers node = Ok [] ->
                    importSpecifiers entry = [VStr "[file]"]).
Proof.
  unfold onImportDeclaration.
  destruct (getImportOrReexportsSpecifiers node) as [specs|]; simpl; [|discriminate].
  destruct (getProp node "source") as [sourceNode|]; simpl; [|discriminate].
  destruct (getProp sourceNode "value") as [src|]; simpl; [|discriminate].
  intros H. injection H as <-. eexists. split; [reflexivity|]. simpl. split.
  - destruct specs; simpl; discriminate.
  - intros Hempty. injection Hempty as ->. reflexivity.
Qed.

Lemma export_all_entry_is_namespace {helpers : Helpers} (node : JsVal) (acc acc' : list Entry) :
  onExportAllDeclaration node acc = Ok acc' ->
  acc' = acc
  \/ exists entry, acc' = acc ++ [entry] /\ importSpecifiers entry = [VStr "[*]"].
Proof.
  unfold onExportAllDeclaration.
  destruct (getProp node "source") as [sourceNode|]; simpl; [|discriminate].
  destruct (truthy sourceNode); simpl.
  - destruct (getProp sourceNode "value"); simpl; [|discriminate].
    intros H. injection H as <-. right. eexists. split; reflexivity.
  - intros H. injection H as <-. now left.
Qed.

Example bare_import_entry :
  visitNode (helpers := specHelpers) (Oxc.importDeclaration [] (Oxc.literal "./a.js") [])
  = Ok [mkEntry [VStr "[file]"] (VStr "./a.js") None].
Proof. reflexivity. Qed.

(* ------------------------------------------------------------------ *)
(** ** Exports without source *)

(** C6.  A named export or an export-all whose [source] is missing
    ([undefined], [null], or anything falsy) is left without entry: its
    callback returns the accumulator it was given. *)
Theorem export_without_source_yields_no_entry {helpers : Helpers}
  (node : JsVal) (acc : list Entry) :
  prop node "type" = VStr "ExportNamedDeclaration"
  \/ prop node "type" = VStr "ExportAllDeclaration" ->
  truthy (prop node "source") = false ->
  enterNode findImportsVisitor node acc = Ok acc.
Proof.
  intros Htype Hsource. unfold enterNode.
  destruct Htype as [Htype | Htype];
    pose proof (prop_string_not_nullish _ _ _ Htype) as Hnode;
    rewrite Htype; simpl.
  - unfold onExportNamedDeclaration, getProp. rewrite Hnode. simpl.
    now rewrite Hsource.
  - unfold onExportAllDeclaration, getProp. rewrite Hnode. simpl.
    now rewrite Hsource.
Qed.

Lemma export_without_source_yields_no_entry_witness :
  enterNode (findImportsVisitor (helpers := specHelpers))
    (Oxc.exportNamedDeclaration
       (Oxc.constDeclaration "x" (VObj [("type", VStr "Literal"); ("value", VNum 1)]))
       [] VNull [])
    [mkEntry [VStr "[file]"] (VStr "pkg") None]
  = Ok [mkEntry [VStr "[file]"] (VStr "pkg") None].
Proof.
  apply (@export_without_source_yields_no_entry specHelpers).
  - left. reflexivity.
  - reflexivity.
Defined.

(* ------------------------------------------------------------------ *)
(** ** Dynamic imports *)

Lemma isLiteral_not_nullish (e : JsVal) : isLiteral e = true -> nullish e = false.
Proof. destruct e; simpl; intros H; try reflexivity; discriminate. Qed.

Lemma dynamicSource_literal (e : JsVal) :
  isLiteral e = true -> dynamicSource e = Ok (prop e "value").
Proof.
  intros H. unfold dynamicSource, getProp.
  now rewrite H, (isLiteral_not_nullish _ H).
Qed.

Lemma dynamicSource_variable (e : JsVal) :
  isLiteral e = false -> dynamicSource e = Ok (VStr "[variable]").
Proof. intros H. unfold dynamicSource. now rewrite H. Qed.

(** The callback of a recognized dynamic import pushes one entry, whose
    source is what [dynamicSource] makes of the argument. *)
Lemma dynamic_import_visit {helpers : Helpers} (node arg : JsVal) :
  DynamicImport node arg ->
  visitNode node
  = bind (dynamicSource arg) (fun src => Ok [mkEntry [VStr "[default]"] src None]).
Proof.
  intros [call wrapper Htype Hcallee Hargument Hwrapper | stmt Htype Hexpression];
    pose proof (prop_string_not_nullish _ _ _ Htype) as Hnode;
    unfold visitNode, enterNode; rewrite Htype; simpl.
  - unfold onCallExpression, getProp. rewrite Hnode. simpl.
    rewrite Hcallee. simpl. rewrite Hargument. simpl. rewrite Hwrapper. simpl.
    now destruct (dynamicSource (prop wrapper "expression")).
  - pose proof (prop_string_not_nullish _ _ _ Hexpression) as Hexpr.
    unfold onExpressionStatement, getProp. rewrite Hnode. simpl.
    rewrite Hexpr. simpl. rewrite Hexpression. simpl.
    now destruct (dynamicSource (prop (prop stmt "expression") "source")).
Qed.

(** C3.  For a recognized dynamic import, call-shaped or statement-shaped,
    with source argument [arg]: when [arg] is a literal holding the string
    [s], the one entry pushed has source [s] and specifiers [[default]];
    when [arg] is not a literal, the entry is pushed all the same, with
    source [[variable]]. *)
Theorem dynamic_import_entry {helpers : Helpers} (node arg : JsVal) :
  DynamicImport node arg ->
  (forall s, isLiteral arg = true -> prop arg "value" = VStr s ->
             visitNode node = Ok [mkEntry [VStr "[default]"] (VStr s) None])
  /\ (isLiteral arg = false ->
      visitNode node = Ok [mkEntry [VStr "[default]"] (VStr "[variable]") None]).
Proof.
  intros Hdyn. rewrite (dynamic_import_visit _ _ Hdyn). split.
  - intros s Hlit Hvalue. now rewrite (dynamicSource_literal _ Hlit), Hvalue.
  - intros Hvar. now rewrite (dynamicSource_variable _ Hvar).
Qed.

Lemma dynamic_import_entry_witness :
  visitNode (helpers := specHelpers)
    (Oxc.expressionStatement (Oxc.importExpression (Oxc.literal "./b.js")))
  = Ok [mkEntry [VStr "[default]"] (VStr "./b.js") None]
  /\ visitNode (helpers := specHelpers)
       (Swc.importCall [Swc.argument (Swc.identifier "path")])
     = Ok [mkEntry [VStr "[default]"] (VStr "[variable]") None].
Proof.
  split.
  - apply (proj1 (@dynamic_import_entry specHelpers
                    (Oxc.expressionStatement (Oxc.importExpression (Oxc.literal "./b.js")))
                    (Oxc.literal "./b.js")
                    (ImportStatement
                       (Oxc.expressionStatement
                          (Oxc.importExpression (Oxc.literal "./b.js")))
                       eq_refl eq_refl)));
      reflexivity.
  - apply (proj2 (@dynamic_import_entry specHelpers
                    (Swc.importCall [Swc.argument (Swc.identifier "path")])
                    (Swc.identifier "path")
                    (ImportCall
                       (Swc.importCall [Swc.argument (Swc.identifier "path")])
                       (Swc.argument (Swc.identifier "path"))
                       eq_refl eq_refl eq_refl eq_refl)));
      reflexivity.
Defined.

(** A dynamic import whose argument is a literal that is not a string keeps
    the literal's value as it is: [import(42)]. *)
Example dynamic_import_number_literal :
  visitNode (helpers := specHelpers)
    (Oxc.expressionStatement
       (Oxc.importExpression (VObj [("type", VStr "Literal"); ("value", VNum 42)])))
  = Ok [mkEntry [VStr "[default]"] (VNum 42) None].
Proof. reflexivity. Qed.

(* ------------------------------------------------------------------ *)
(** ** Import attributes *)

(** C9.  The entries pushed for a call or for an expression statement, the
    two shapes of a dynamic import, never have [assertionType], whatever
    [getAssertionType] would read off the node; an entry that has one was
    pushed for an import declaration, a named re-export or an export-all. *)
Theorem dynamic_import_without_assertionType {helpers : Helpers}
  (node : JsVal) (entries : list Entry) :
  visitNode node = Ok entries ->
  (prop node "type" = VStr "CallExpression"
   \/ prop node "type" = VStr "ExpressionStatement" ->
   Forall (fun entry => assertionType entry = None) entries)
  /\ (forall entry assertion,
         In entry entries -> assertionType entry = Some assertion ->
         prop node "type" = VStr "ImportDeclaration"
         \/ prop node "type" = VStr "ExportNamedDeclaration"
         \/ prop node "type" = VStr "ExportAllDeclaration").
Proof.
  intros Hvisit.
  assert (Hcases :
            (prop node "type" = VStr "ImportDeclaration"
             \/ prop node "type" = VStr "ExportNamedDeclaration"
             \/ prop node "type" = VStr "ExportAllDeclaration")
            \/ Forall (fun entry => assertionType entry = None) entries).
  { unfold visitNode, enterNode in Hvisit.
    destruct (prop node "type") as [ | | | | t | | ] eqn:Htype;
      try (injection Hvisit as <-; right; constructor).
    unfold findImportsVisitor in Hvisit.
    destruct (String.eqb t "ImportDeclaration") eqn:E1;
      [apply String.eqb_eq in E1; subst t; auto|].
    destruct (String.eqb t "ExportNamedDeclaration") eqn:E2;
      [apply String.eqb_eq in E2; subst t; auto|].
    destruct (String.eqb t "ExportAllDeclaration") eqn:E3;
      [apply String.eqb_eq in E3; subst t; auto|].
    right.
    destruct (String.eqb t "CallExpression");
      [|destruct (String.eqb t "ExpressionStatement")].
    - unfold onCallExpression in Hvisit.
      repeat match type of Hvisit with
             | context [bind ?e _] => destruct e; simpl in Hvisit
             | context [if ?b then _ else _] => destruct b; simpl in Hvisit
             end;
        try discriminate; injection Hvisit as <-; repeat constructor.
    - unfold onExpressionStatement in Hvisit.
      repeat match type of Hvisit with
             | context [bind ?e _] => destruct e; simpl in Hvisit
             | context [if ?b then _ else _] => destruct b; simpl in Hvisit
             end;
        try discriminate; injection Hvisit as <-; repeat constructor.
    - injection Hvisit as <-. constructor. }
  split.
  - intros Hdyn. destruct Hcases as [Hdecl | Hnone]; [|exact Hnone].
    destruct Hdyn as [Hdyn | Hdyn]; rewrite Hdyn in Hdecl;
      destruct Hdecl as [H | [H | H]]; discriminate.
  - intros entry assertion Hin Hsome.
    destruct Hcases as [Hdecl | Hnone]; [exact Hdecl|].
    rewrite Forall_forall in Hnone. rewrite (Hnone _ Hin) in Hsome. discriminate.
Qed.

Lemma dynamic_import_without_assertionType_witness :
  getAssertionType (Helpers := specHelpers) importCallWithAttributes = VStr "json"
  /\ Forall (fun entry => assertionType entry = None)
            [mkEntry [VStr "[default]"] (VStr "./data.json") None].
Proof.
  split; [reflexivity|].
  apply (proj1 (@dynamic_import_without_assertionType specHelpers
                  importCallWithAttributes
                  [mkEntry [VStr "[default]"] (VStr "./data.json") None]
                  eq_refl)).
  left. reflexivity.
Defined.

Example static_import_with_assertionType :
  visitNode (helpers := specHelpers)
    (Oxc.importDeclaration [Oxc.importDefaultSpecifier (Oxc.identifier "data")]
       (Oxc.literal "./data.json")
       [("attributes",
         VArr [VObj [("key", Oxc.identifier "type"); ("value", Oxc.literal "json")]])])
  = Ok [mkEntry [VStr "[default]"] (VStr "./data.json") (Some (VStr "json"))].
Proof. reflexivity. Qed.

(* ------------------------------------------------------------------ *)
(** ** Re-exports and imports *)

Lemma named_specifier_tag (d : Dialect) (x : string) :
  x <> "" -> x <> "default" ->
  specifierTag (match d with
                | OxcDialect => Oxc.importSpecifier (Oxc.identifier x) (Oxc.identifier x)
                | SwcDialect => Swc.importSpecifier (Swc.identifier x) VNull
                end) = Ok (VStr x)
  /\ specifierTag (match d with
                   | OxcDialect => Oxc.exportSpecifier (Oxc.identifier x) (Oxc.identifier x)
                   | SwcDialect => Swc.exportSpecifier (Swc.identifier x) VNull
                   end) = Ok (VStr x).
Proof.
  intros Hnonempty Hdefault.
  apply String.eqb_neq in Hnonempty, Hdefault.
  destruct d; split; unfold specifierTag, getSpecifierValue, jsOr;
    repeat (progress (cbn; rewrite ?Hdefault, ?Hnonempty)); reflexivity.
Qed.

(** The two callbacks on a declaration whose fields are all there. *)
Lemma onImportDeclaration_entry {helpers : Helpers}
  (node sourceNode : JsVal) (specs tags : list JsVal) (acc : list Entry) :
  prop node "type" = VStr "ImportDeclaration" ->
  prop node "specifiers" = VArr specs ->
  mapM specifierTag specs = Ok tags -> tags <> [] ->
  prop node "source" = sourceNode -> nullish sourceNode = false ->
  onImportDeclaration node acc
  = Ok (acc ++ [entryWithAssertion node tags (prop sourceNode "value")]).
Proof.
  intros Htype Hspecs Htags Hnonempty Hsource Hsrc.
  pose proof (prop_string_not_nullish _ _ _ Htype) as Hnode.
  unfold onImportDeclaration, getImportOrReexportsSpecifiers, getProp.
  rewrite Hnode, Hspecs. simpl. rewrite Htags. simpl.
  rewrite Hsource, Hsrc. simpl.
  destruct tags; [contradiction|reflexivity].
Qed.

Lemma onExportNamedDeclaration_entry {helpers : Helpers}
  (node sourceNode : JsVal) (specs tags : list JsVal) (acc : list Entry) :
  prop node "type" = VStr "ExportNamedDeclaration" ->
  prop node "specifiers" = VArr specs ->
  mapM specifierTag specs = Ok tags ->
  prop node "source" = sourceNode -> truthy sourceNode = true ->
  onExportNamedDeclaration node acc
  = Ok (acc ++ [entryWithAssertion node tags (prop sourceNode "value")]).
Proof.
  intros Htype Hspecs Htags Hsource Hsrc.
  pose proof (prop_string_not_nullish _ _ _ Htype) as Hnode.
  assert (Hdefined : nullish sourceNode = false) by (now destruct sourceNode).
  unfold onExportNamedDeclaration, getImportOrReexportsSpecifiers, getProp.
  rewrite Hnode. simpl. rewrite Hsource, Hsrc. simpl.
  rewrite Hspecs. simpl. rewrite Htags. simpl.
  now rewrite Hdefined.
Qed.

(** A named re-export with a source and an empty specifier list gets an
    entry without any specifier, whatever the helpers are. *)
Lemma reexport_without_specifiers {helpers : Helpers}
  (node sourceNode : JsVal) (acc : list Entry) :
  prop node "type" = VStr "ExportNamedDeclaration" ->
  prop node "specifiers" = VArr [] ->
  prop node "source" = sourceNode -> truthy sourceNode = true ->
  onExportNamedDeclaration node acc
  = Ok (acc ++ [entryWithAssertion node [] (prop sourceNode "value")]).
Proof.
  intros Htype Hspecs Hsource Hsrc.
  now apply (onExportNamedDeclaration_entry node sourceNode [] []).
Qed.

Lemma visitNode_import {helpers : Helpers} (node : JsVal) :
  prop node "type" = VStr "ImportDeclaration" ->
  visitNode node = onImportDeclaration node [].
Proof. intros H. unfold visitNode, enterNode. now rewrite H. Qed.

Lemma visitNode_export_named {helpers : Helpers} (node : JsVal) :
  prop node "type" = VStr "ExportNamedDeclaration" ->
  visitNode node = onExportNamedDeclaration node [].
Proof. intros H. unfold visitNode, enterNode. now rewrite H. Qed.

(** C7.  In either parser's shape, for an identifier [x] that can stand in
    both forms (not empty, not the reserved word [default]) and a source
    [s], [export { x } from s] and [import { x } from s] push the same entry,
    [{ importSpecifiers: [x], source: s }] with the assertion type of the
    attribute clause when the two carry the same one.  The entry has no
    field that tells which of the two it came from. *)
Theorem reexport_entry_same_as_import {helpers : Helpers}
  (d : Dialect) (x s : string) (rest : list (string * JsVal)) :
  x <> "" -> x <> "default" ->
  getAssertionType (namedImport d x s rest) = getAssertionType (namedReexport d x s rest) ->
  visitNode (namedReexport d x s rest) = visitNode (namedImport d x s rest)
  /\ visitNode (namedImport d x s rest)
     = Ok [entryWithAssertion (namedImport d x s rest) [VStr x] (VStr s)].
Proof.
  intros Hnonempty Hdefault Hassertion.
  destruct (named_specifier_tag d x Hnonempty Hdefault) as [Himported Hexported].
  assert (Himport : visitNode (namedImport d x s rest)
                    = Ok [entryWithAssertion (namedImport d x s rest) [VStr x] (VStr s)]).
  { rewrite visitNode_import by (now destruct d).
    destruct d.
    - rewrite (onImportDeclaration_entry _ (Oxc.literal s)
                 [Oxc.importSpecifier (Oxc.identifier x) (Oxc.identifier x)] [VStr x]);
        try reflexivity; [cbn [mapM]; now rewrite Himported | discriminate].
    - rewrite (onImportDeclaration_entry _ (Swc.stringLiteral s)
                 [Swc.importSpecifier (Swc.identifier x) VNull] [VStr x]);
        try reflexivity; [cbn [mapM]; now rewrite Himported | discriminate]. }
  split; [|exact Himport].
  rewrite Himport. unfold entryWithAssertion at 1. rewrite Hassertion.
  rewrite visitNode_export_named by (now destruct d).
  destruct d.
  - rewrite (onExportNamedDeclaration_entry _ (Oxc.literal s)
               [Oxc.exportSpecifier (Oxc.identifier x) (Oxc.identifier x)] [VStr x]);
      try reflexivity. cbn [mapM]. now rewrite Hexported.
  - rewrite (onExportNamedDeclaration_entry _ (Swc.stringLiteral s)
               [Swc.exportSpecifier (Swc.identifier x) VNull] [VStr x]);
      try reflexivity. cbn [mapM]. now rewrite Hexported.
Qed.

Lemma reexport_entry_same_as_import_witness :
  visitNode (helpers := specHelpers)
    (namedReexport OxcDialect "x" "./a.js"
       [("attributes",
         VArr [VObj [("key", Oxc.identifier "type"); ("value", Oxc.literal "json")]])])
  = visitNode (helpers := specHelpers)
      (namedImport OxcDialect "x" "./a.js"
         [("attributes",
           VArr [VObj [("key", Oxc.identifier "type"); ("value", Oxc.literal "json")]])])
  /\ visitNode (helpers := specHelpers) (namedImport SwcDialect "x" "./a.js" [])
     = Ok [mkEntry [VStr "x"] (VStr "./a.js") None].
Proof.
  split.
  - apply (@reexport_entry_same_as_import specHelpers OxcDialect "x" "./a.js");
      [discriminate | discriminate | reflexivity].
  - apply (@reexport_entry_same_as_import specHelpers SwcDialect "x" "./a.js" []);
      [discriminate | discriminate | reflexivity].
Defined.

(** Without the side conditions the two differ: [export { default } from s]
    is tagged [[default]], a specifier importing the name [default] is not. *)
Example default_reexport_differs :
  specifierTag (Oxc.exportSpecifier (Oxc.identifier "default") (Oxc.identifier "default"))
  = Ok (VStr "[default]")
  /\ specifierTag (Oxc.importSpecifier (Oxc.identifier "default") (Oxc.identifier "d"))
     = Ok (VStr "default").
Proof. split; reflexivity. Qed.

(* ------------------------------------------------------------------ *)
(** ** The tag of one specifier *)

Lemma jsOr_truthy (a b : JsVal) : truthy a = true -> a ||| b = a.
Proof. intros H. unfold jsOr. now rewrite H. Qed.

Lemma jsOr_falsy (a b : JsVal) : truthy a = false -> a ||| b = b.
Proof. intros H. unfold jsOr. now rewrite H. Qed.

(** A chain of [||] picks the first truthy operand, the last one when there
    is none. *)
Lemma jsOr_chain (a : JsVal) (rest : list JsVal) :
  fold_left jsOr rest a = firstTruthy (a :: rest).
Proof.
  revert a. induction rest as [|b rest IH]; intros a.
  - unfold firstTruthy. simpl. now destruct (truthy a).
  - simpl fold_left. rewrite IH. unfold firstTruthy. simpl find.
    destruct (truthy a) eqn:Ha.
    + rewrite (jsOr_truthy _ _ Ha). now rewrite Ha.
    + rewrite (jsOr_falsy _ _ Ha). destruct (truthy b); [reflexivity|].
      destruct (find truthy rest); [reflexivity|].
      now destruct rest.
Qed.

Lemma getSpecifierValue_chain (s : JsVal) :
  nullish s = false -> getSpecifierValue s = Ok (firstTruthy (nameAccessors s)).
Proof.
  intros Hs. unfold getSpecifierValue, getProp. rewrite Hs. simpl bind.
  unfold nameAccessors. cbn [flat_map app].
  now rewrite <- jsOr_chain.
Qed.

(** C4 fails on the code.  In [import { "" as x } from 'm'] the imported
    name is the empty string, which is not [undefined]; the code passes it
    over, because it is falsy, and tags the specifier with the local name. *)
Lemma empty_name_is_passed_over :
  specifierTagAsClaimed emptyNameSpecifier = VStr ""
  /\ specifierTag emptyNameSpecifier = Ok (VStr "x").
Proof. split; reflexivity. Qed.

Lemma specifierTag_reads (s : JsVal) :
  specifierTag s = if nullish s then TypeError else Ok (specifierTagByTruthiness s).
Proof.
  unfold specifierTag, getProp, specifierTagByTruthiness,
    isDefaultSpecifier, isNamespaceSpecifier.
  destruct (nullish s) eqn:Hs; [reflexivity|]. simpl bind.
  destruct (strictEqStr (prop s "type") "ImportDefaultSpecifier"
            || strictEqStr (prop s "type") "ExportDefaultSpecifier"
            || strictEqStr (prop s "type") "ExportSpecifier"
               && (strictEqStr (optProp (prop s "exported") "value") "default"
                   || strictEqStr (optProp (prop s "exported") "name") "default"));
    [reflexivity|].
  destruct (strictEqStr (prop s "type") "ImportNamespaceSpecifier"
            || strictEqStr (prop s "type") "ExportNamespaceSpecifier");
    [reflexivity|].
  now apply getSpecifierValue_chain.
Qed.

(** C4, amended.  The tag of a specifier is [[default]] for a default import
    or export node type and for an export specifier whose exported name is
    ['default']; else [[*]] for a namespace import or export specifier; else
    the first truthy value of the chain imported, original, local, exported
    name (each read as [value], then as [name]), so that an empty name is
    passed over, and the last read of the chain when none is truthy.  A
    specifier that is [undefined] or [null] makes the read throw. *)
Theorem specifier_tag_by_truthiness (s : JsVal) :
  specifierTag s = if nullish s then TypeError else Ok (specifierTagByTruthiness s).
Proof. exact (specifierTag_reads s). Qed.

(** On specifiers whose names are each [undefined] or truthy, as identifiers
    and non-empty string names are, the two readings of the chain agree. *)
Lemma firstDefined_firstTruthy (vs : list JsVal) :
  Forall (fun v => isUndefined v || truthy v = true) vs ->
  firstDefined vs = firstTruthy vs.
Proof.
  unfold firstDefined, firstTruthy.
  induction 1 as [|v vs Hv Hvs IH]; [reflexivity|].
  simpl find. destruct v; simpl in Hv |- *; try rewrite Hv; try reflexivity;
    try discriminate.
  rewrite IH. destruct (find truthy vs); [reflexivity|].
  destruct vs; [reflexivity|]. reflexivity.
Qed.

Lemma specifier_tag_as_claimed_on_proper_names (s : JsVal) :
  nullish s = false ->
  Forall (fun v => isUndefined v || truthy v = true) (nameAccessors s) ->
  specifierTag s = Ok (specifierTagAsClaimed s).
Proof.
  intros Hs Hnames. rewrite specifierTag_reads, Hs.
  unfold specifierTagByTruthiness, specifierTagAsClaimed.
  now rewrite (firstDefined_firstTruthy _ Hnames).
Qed.

(* ------------------------------------------------------------------ *)
(** ** Internal sources *)

Lemma config_defaults :
  config [] = mkCfg VNull (VBool false)
  /\ config [("keepInternalSources", VBool true)] = mkCfg VNull (VBool true).
Proof. split; reflexivity. Qed.

(** C5.  Whenever the walk returns, so does [analyzeFile].  With a falsy
    [keepInternalSources], [false] being the default, no entry of the result
    has a source that [isRelativeSourcePath] accepts.  With a truthy one the
    result is the normalized sequence as a whole: as many entries as the
    walk produced, in the same order, with the same specifiers. *)
Theorem keepInternalSources_filters {helpers : Helpers}
  (ast : JsVal) (context : Context) (produced : list Entry) :
  findImportsPerAstFile ast = Ok produced ->
  exists entries,
    analyzeFile ast context = Ok (mkResult entries)
    /\ (truthy (keepInternalSources (analyzerCfg context)) = false ->
        Forall (fun entry => isRelativeSourcePath (source entry) = false) entries)
    /\ (truthy (keepInternalSources (analyzerCfg context)) = true ->
        entries = normalizeSourcePaths produced (relativePath context)
                    (targetProjectPath (analyzerCfg context))
        /\ List.length entries = List.length produced
        /\ map importSpecifiers entries = map importSpecifiers produced).
Proof.
  intros Hwalk. unfold analyzeFile. rewrite Hwalk. simpl bind.
  eexists. split; [reflexivity|]. split; intros Hkeep; rewrite Hkeep; simpl.
  - apply Forall_forall. intros entry Hin.
    apply filter_In in Hin as [_ Hin]. now apply negb_true_iff in Hin.
  - unfold normalizeSourcePaths. split; [reflexivity|]. split.
    + apply length_map.
    + rewrite map_map. reflexivity.
Qed.

Lemma keepInternalSources_filters_witness :
  (exists entries,
      analyzeFile (helpers := specHelpers) mixedFile (ctxKeep false)
      = Ok (mkResult entries)
      /\ Forall (fun entry => specIsRelativeSourcePath (source entry) = false) entries)
  /\ (exists entries,
         analyzeFile (helpers := specHelpers) mixedFile (ctxKeep true)
         = Ok (mkResult entries)
         /\ List.length entries = 5%nat).
Proof.
  split.
  - destruct (@keepInternalSources_filters specHelpers mixedFile (ctxKeep false) _ eq_refl)
      as [entries [Hrun [Hdrop _]]].
    exists entries. split; [exact Hrun | exact (Hdrop eq_refl)].
  - destruct (@keepInternalSources_filters specHelpers mixedFile (ctxKeep true) _ eq_refl)
      as [entries [Hrun [_ Hkeep]]].
    exists entries. split; [exact Hrun | exact (proj1 (proj2 (Hkeep eq_refl)))].
Defined.

Example mixedFile_filtered :
  analyzeFile (helpers := specHelpers) mixedFile (ctxKeep false)
  = Ok (mkResult [ mkEntry [VStr "[default]"; VStr "b"] (VStr "pkg-a") None;
                   mkEntry [VStr "[*]"] (VStr "pkg-e") None ])
  /\ fmap (fun r => List.length (result r))
          (analyzeFile (helpers := specHelpers) mixedFile (ctxKeep true))
     = Ok 5%nat.
Proof. split; reflexivity. Qed.

(* ------------------------------------------------------------------ *)
(** ** Further properties of the analyzer *)

(** *** Lists of fallible steps *)

Lemma mapM_Forall2 {A B} (f : A -> Result B) (l : list A) (l' : list B) :
  mapM f l = Ok l' -> Forall2 (fun x y => f x = Ok y) l l'.
Proof.
  revert l'. induction l as [|x l IH]; intros l' H; simpl in H.
  - injection H as <-. constructor.
  - destruct (f x) as [y|] eqn:Hx; simpl in H; [|discriminate].
    destruct (mapM f l) as [ys|]; simpl in H; [|discriminate].
    injection H as <-. constructor; auto.
Qed.

Lemma mapM_throws {A B} (f : A -> Result B) (l : list A) :
  mapM f l = TypeError <-> exists x, In x l /\ f x = TypeError.
Proof.
  induction l as [|x l IH]; simpl.
  - split; [discriminate | intros [x [[] _]]].
  - destruct (f x) as [y|] eqn:Hx; simpl.
    + destruct (mapM f l) as [ys|]; simpl.
      * split; [discriminate|]. intros [x' [[<- | Hin] Hbad]].
        -- rewrite Hx in Hbad. discriminate.
        -- assert (H : @Ok (list B) ys = TypeError) by (apply IH; eauto).
           discriminate.
      * split; [|reflexivity]. intros _.
        destruct (proj1 IH eq_refl) as [x' [Hin Hbad]]. eauto.
    + split; [|reflexivity]. intros _. exists x. auto.
Qed.

Lemma Forall2_In_l {A B} (R : A -> B -> Prop) (l : list A) (l' : list B) (x : A) :
  Forall2 R l l' -> In x l -> exists y, In y l' /\ R x y.
Proof.
  induction 1 as [|a b l l' Hab _ IH]; intros Hin; [contradiction|].
  destruct Hin as [<- | Hin].
  - exists b. split; [now left | exact Hab].
  - destruct (IH Hin) as [y [Hy Hxy]]. exists y. split; [now right | exact Hxy].
Qed.

Lemma Forall2_In_r {A B} (R : A -> B -> Prop) (l : list A) (l' : list B) (y : B) :
  Forall2 R l l' -> In y l' -> exists x, In x l /\ R x y.
Proof.
  induction 1 as [|a b l l' Hab _ IH]; intros Hin; [contradiction|].
  destruct Hin as [<- | Hin].
  - exists a. split; [now left | exact Hab].
  - destruct (IH Hin) as [x [Hx Hxy]]. exists x. split; [now right | exact Hxy].
Qed.

(** *** Specifier lists *)

(** X1.  [getImportOrReexportsSpecifiers] returns one tag per specifier of
    the node's list, in the order of the list: the tag at each position is
    the tag of the specifier at that position. *)
Theorem specifier_tags_follow_specifiers (node : JsVal) (specs tags : list JsVal) :
  prop node "specifiers" = VArr specs ->
  getImportOrReexportsSpecifiers node = Ok tags ->
  Forall2 (fun s tag => specifierTag s = Ok tag) specs tags
  /\ List.length tags = List.length specs.
Proof.
  intros Hspecs Hrun. unfold getImportOrReexportsSpecifiers, getProp in Hrun.
  destruct (nullish node); [discriminate|]. simpl in Hrun.
  rewrite Hspecs in Hrun. simpl in Hrun.
  apply mapM_Forall2 in Hrun. split; [exact Hrun|].
  symmetry. exact (Forall2_length Hrun).
Qed.

Lemma specifier_tags_follow_specifiers_witness :
  Forall2 (fun s tag => specifierTag s = Ok tag)
    [Oxc.importDefaultSpecifier (Oxc.identifier "a");
     Oxc.importSpecifier (Oxc.identifier "b") (Oxc.identifier "c")]
    [VStr "[default]"; VStr "b"]
  /\ List.length [VStr "[default]"; VStr "b"] = 2%nat.
Proof.
  exact (specifier_tags_follow_specifiers
           (Oxc.importDeclaration
              [Oxc.importDefaultSpecifier (Oxc.identifier "a");
               Oxc.importSpecifier (Oxc.identifier "b") (Oxc.identifier "c")]
              (Oxc.literal "pkg-a") [])
           _ [VStr "[default]"; VStr "b"] eq_refl eq_refl).
Defined.

(** X2.  An import declaration whose [specifiers] is missing ([undefined],
    [null], anything falsy) is treated like one with an empty list: given a
    source node, it gets the one entry [{ importSpecifiers: ['[file]'],
    source: node.source.value }]. *)
Theorem import_without_specifier_list {helpers : Helpers}
  (node : JsVal) (acc : list Entry) :
  prop node "type" = VStr "ImportDeclaration" ->
  truthy (prop node "specifiers") = false ->
  nullish (prop node "source") = false ->
  onImportDeclaration node acc
  = Ok (acc ++ [entryWithAssertion node [VStr "[file]"]
                  (prop (prop node "source") "value")]).
Proof.
  intros Htype Hspecs Hsource.
  pose proof (prop_string_not_nullish _ _ _ Htype) as Hnode.
  unfold onImportDeclaration, getImportOrReexportsSpecifiers, getProp.
  rewrite Hnode. simpl. rewrite (jsOr_falsy _ _ Hspecs). simpl.
  now rewrite Hsource.
Qed.

Lemma import_without_specifier_list_witness :
  onImportDeclaration (helpers := specHelpers)
    (VObj [("type", VStr "ImportDeclaration"); ("source", Swc.stringLiteral "./x.js")])
    []
  = Ok [mkEntry [VStr "[file]"] (VStr "./x.js") None].
Proof.
  apply (@import_without_specifier_list specHelpers
           (VObj [("type", VStr "ImportDeclaration");
                  ("source", Swc.stringLiteral "./x.js")]) []);
    reflexivity.
Defined.

(** X3.  [getImportOrReexportsSpecifiers] throws when the node's
    [specifiers] is truthy but not an array (there is no [map] to call), and
    when the array holds an [undefined] or [null] element (its [type] cannot
    be read). *)
Theorem unreadable_specifiers_throw (node : JsVal) :
  nullish node = false ->
  (truthy (prop node "specifiers") = true
   /\ (forall specs, prop node "specifiers" <> VArr specs))
  \/ (exists specs s, prop node "specifiers" = VArr specs
                      /\ In s specs /\ nullish s = true) ->
  getImportOrReexportsSpecifiers node = TypeError.
Proof.
  intros Hnode Hbad. unfold getImportOrReexportsSpecifiers, getProp.
  rewrite Hnode. simpl.
  destruct Hbad as [[Htruthy Hshape] | [specs [s [Hspecs [Hin Hs]]]]].
  - rewrite (jsOr_truthy _ _ Htruthy).
    destruct (prop node "specifiers") as [ | | | | | specs | ]; try reflexivity.
    now destruct (Hshape specs).
  - rewrite Hspecs. simpl. apply mapM_throws. exists s. split; [exact Hin|].
    unfold specifierTag, getProp. now rewrite Hs.
Qed.

Lemma unreadable_specifiers_throw_witness :
  getImportOrReexportsSpecifiers
    (VObj [("type", VStr "ImportDeclaration");
           ("specifiers", VArr [Oxc.importDefaultSpecifier (Oxc.identifier "a"); VNull])])
  = TypeError
  /\ getImportOrReexportsSpecifiers
       (VObj [("type", VStr "ImportDeclaration"); ("specifiers", VStr "a")])
     = TypeError.
Proof.
  split.
  - apply unreadable_specifiers_throw; [reflexivity|].
    right. exists [Oxc.importDefaultSpecifier (Oxc.identifier "a"); VNull], VNull.
    split; [reflexivity|]. split; [right; left; reflexivity | reflexivity].
  - apply unreadable_specifiers_throw; [reflexivity|].
    left. split; [reflexivity|]. intros specs. discriminate.
Defined.

(** X10.  A renamed import is tagged with the imported name, the name the
    source module exports, not with the local binding: [import { a as b }]
    gives ['a'], in either parser's shape. *)
Theorem renamed_import_tag (d : Dialect) (imported local : string) :
  imported <> "" ->
  specifierTag (renamedImportSpecifier d imported local) = Ok (VStr imported).
Proof.
  intros Hnonempty. apply String.eqb_neq in Hnonempty.
  destruct d; unfold specifierTag, getSpecifierValue, jsOr;
    repeat (progress (cbn; rewrite ?Hnonempty)); reflexivity.
Qed.

Lemma renamed_import_tag_witness :
  specifierTag (renamedImportSpecifier OxcDialect "a" "b") = Ok (VStr "a")
  /\ specifierTag (renamedImportSpecifier SwcDialect "a" "b") = Ok (VStr "a").
Proof. split; apply renamed_import_tag; discriminate. Defined.

(** X11.  A renamed re-export [export { a as b } from ...] is tagged
    [[default]] when the exported name [b] is ['default'], and otherwise with
    the name [a] taken from the source module, in either parser's shape: the
    new name is not recorded. *)
Theorem renamed_reexport_tag (d : Dialect) (local exported : string) :
  local <> "" ->
  specifierTag (renamedExportSpecifier d local exported)
  = Ok (if String.eqb exported "default" then VStr "[default]" else VStr local).
Proof.
  intros Hnonempty. apply String.eqb_neq in Hnonempty.
  destruct (String.eqb exported "default") eqn:Hdefault;
    destruct d; unfold specifierTag, getSpecifierValue, jsOr;
    repeat (progress (cbn; rewrite ?Hdefault, ?Hnonempty)); reflexivity.
Qed.

Lemma renamed_reexport_tag_witness :
  specifierTag (renamedExportSpecifier OxcDialect "a" "b") = Ok (VStr "a")
  /\ specifierTag (renamedExportSpecifier SwcDialect "a" "default") = Ok (VStr "[default]")
  /\ specifierTag (renamedExportSpecifier OxcDialect "default" "a") = Ok (VStr "default").
Proof.
  split; [|split].
  - apply (renamed_reexport_tag OxcDialect "a" "b"). discriminate.
  - apply (renamed_reexport_tag SwcDialect "a" "default"). discriminate.
  - apply (renamed_reexport_tag OxcDialect "default" "a"). discriminate.
Defined.

(** *** What one node pushes *)

Ltac invert_callback H :=
  repeat match type of H with
         | context [bind ?e _] => destruct e eqn:?; simpl in H
         | context [if ?b then _ else _] => destruct b eqn:?; simpl in H
         end;
  try discriminate; injection H as <-.

(** A callback pushes nothing or one entry; the entry of a declaration is
    built by [entryWithAssertion], that of a dynamic import is the literal
    [{ importSpecifiers: ['[default]'], source }]. *)
Lemma visitNode_shape {helpers : Helpers} (node : JsVal) (entries : list Entry) :
  visitNode node = Ok entries ->
  entries = []
  \/ (isStaticDeclaration node = true
      /\ exists specs src, entries = [entryWithAssertion node specs src])
  \/ (isStaticDeclaration node = false
      /\ exists src, entries = [mkEntry [VStr "[default]"] src None]).
Proof.
  unfold visitNode, enterNode, isStaticDeclaration. intros Hvisit.
  destruct (prop node "type") as [ | | | | t | | ] eqn:Htype;
    try (injection Hvisit as <-; now left).
  unfold findImportsVisitor in Hvisit. simpl.
  destruct (String.eqb t "ImportDeclaration") eqn:E1.
  { unfold onImportDeclaration in Hvisit. invert_callback Hvisit;
      first [now left | right; left; (split; [reflexivity|]); eexists; eexists; reflexivity]. }
  destruct (String.eqb t "ExportNamedDeclaration") eqn:E2.
  { unfold onExportNamedDeclaration in Hvisit. invert_callback Hvisit;
      first [now left | right; left; (split; [reflexivity|]); eexists; eexists; reflexivity]. }
  destruct (String.eqb t "ExportAllDeclaration") eqn:E3.
  { unfold onExportAllDeclaration in Hvisit. invert_callback Hvisit;
      first [now left | right; left; (split; [reflexivity|]); eexists; eexists; reflexivity]. }
  destruct (String.eqb t "CallExpression") eqn:E4.
  { unfold onCallExpression in Hvisit. invert_callback Hvisit;
      first [now left | right; right; (split; [reflexivity|]); eexists; reflexivity]. }
  destruct (String.eqb t "ExpressionStatement") eqn:E5.
  { unfold onExpressionStatement in Hvisit. invert_callback Hvisit;
      first [now left | right; right; (split; [reflexivity|]); eexists; reflexivity]. }
  injection Hvisit as <-. now left.
Qed.

Lemma visitNode_at_most_one {helpers : Helpers} (node : JsVal) (entries : list Entry) :
  visitNode node = Ok entries -> (List.length entries <= 1)%nat.
Proof.
  intros H. apply visitNode_shape in H.
  destruct H as [-> | [[_ [specs [src ->]]] | [_ [src ->]]]]; simpl; lia.
Qed.

Lemma visitNode_skips {helpers : Helpers} (node : JsVal) :
  mayContribute node = false -> visitNode node = Ok [].
Proof. intros H. unfold visitNode. now apply enterNode_skips. Qed.

(** X12.  An entry pushed for an import declaration, a named re-export or
    an export-all has [assertionType] exactly when [getAssertionType(node)]
    is truthy, and then it is that value; a falsy one (no attribute clause,
    or an empty tag) leaves the field out. *)
Theorem assertionType_when_truthy {helpers : Helpers}
  (node : JsVal) (entries : list Entry) (entry : Entry) :
  isStaticDeclaration node = true ->
  visitNode node = Ok entries -> In entry entries ->
  assertionType entry
  = if truthy (getAssertionType node) then Some (getAssertionType node) else None.
Proof.
  intros Hstatic Hvisit Hin. apply visitNode_shape in Hvisit.
  destruct Hvisit as [-> | [[_ [specs [src ->]]] | [Hdynamic _]]].
  - contradiction.
  - destruct Hin as [<- | []]. reflexivity.
  - rewrite Hstatic in Hdynamic. discriminate.
Qed.

Lemma assertionType_when_truthy_witness :
  assertionType (mkEntry [VStr "[*]"] (VStr "./data.json") (Some (VStr "json")))
  = if truthy (VStr "json") then Some (VStr "json") else None.
Proof.
  apply (@assertionType_when_truthy specHelpers
           (Oxc.exportAllDeclaration VNull (Oxc.literal "./data.json")
              [("attributes",
                VArr [VObj [("key", Oxc.identifier "type"); ("value", Oxc.literal "json")]])])
           [mkEntry [VStr "[*]"] (VStr "./data.json") (Some (VStr "json"))]).
  - reflexivity.
  - reflexivity.
  - left. reflexivity.
Defined.

(** X13.  A recognized dynamic import never throws and always pushes
    exactly one entry, whatever its argument is: the source is the
    argument's [value] when the argument is a literal node (a string, but
    also a number, or [undefined] when the literal has no [value]) and
    [[variable]] otherwise, a missing argument expression included. *)
Theorem dynamic_import_always_one_entry {helpers : Helpers} (node arg : JsVal) :
  DynamicImport node arg ->
  visitNode node
  = Ok [mkEntry [VStr "[default]"]
          (if isLiteral arg then prop arg "value" else VStr "[variable]") None].
Proof.
  intros Hdyn. rewrite (dynamic_import_visit _ _ Hdyn).
  destruct (isLiteral arg) eqn:Hlit.
  - now rewrite (dynamicSource_literal _ Hlit).
  - now rewrite (dynamicSource_variable _ Hlit).
Qed.

Lemma dynamic_import_always_one_entry_witness :
  visitNode (helpers := specHelpers)
    (Oxc.expressionStatement (VObj [("type", VStr "ImportExpression")]))
  = Ok [mkEntry [VStr "[default]"] (VStr "[variable]") None].
Proof.
  exact (@dynamic_import_always_one_entry specHelpers
           (Oxc.expressionStatement (VObj [("type", VStr "ImportExpression")]))
           VUndef
           (ImportStatement
              (Oxc.expressionStatement (VObj [("type", VStr "ImportExpression")]))
              eq_refl eq_refl)).
Defined.

(** *** The walk as a whole *)

Lemma findImports_entries {helpers : Helpers} (ast : JsVal) (entries : list Entry) :
  findImportsPerAstFile ast = Ok entries ->
  exists ess, Forall2 (fun node pushed => visitNode node = Ok pushed)
                      (nodesInOrder ast) ess
              /\ entries = List.concat ess.
Proof.
  rewrite findImports_by_nodes. intros H.
  destruct (mapM visitNode (nodesInOrder ast)) as [ess|] eqn:Hess; [|discriminate].
  injection H as <-. exists ess. split; [now apply mapM_Forall2 | reflexivity].
Qed.

(** X5.  Every entry the walk returns was pushed, as its only entry, by the
    callback of a node of the tree, and that node is one of the shapes the
    callbacks react to. *)
Theorem entry_has_a_node {helpers : Helpers}
  (ast : JsVal) (entries : list Entry) (entry : Entry) :
  findImportsPerAstFile ast = Ok entries -> In entry entries ->
  exists node, In node (nodesInOrder ast)
               /\ mayContribute node = true
               /\ visitNode node = Ok [entry].
Proof.
  intros Hwalk Hin.
  destruct (findImports_entries _ _ Hwalk) as [ess [Hess ->]].
  apply in_concat in Hin as [pushed [Hpushed Hentry]].
  destruct (Forall2_In_r _ _ _ _ Hess Hpushed) as [node [Hnode Hvisit]].
  exists node. split; [exact Hnode|].
  assert (Hone : pushed = [entry]).
  { pose proof (visitNode_at_most_one _ _ Hvisit) as Hlen.
    destruct pushed as [|e [|e' rest]]; simpl in Hlen, Hentry;
      [contradiction | | lia].
    destruct Hentry as [-> | []]. reflexivity. }
  subst pushed. split; [|exact Hvisit].
  destruct (mayContribute node) eqn:Hmay; [reflexivity|].
  rewrite (visitNode_skips _ Hmay) in Hvisit. discriminate.
Qed.

Lemma entry_has_a_node_witness :
  exists node,
    In node (nodesInOrder mixedFile)
    /\ mayContribute node = true
    /\ visitNode (helpers := specHelpers) node
       = Ok [mkEntry [VStr "[*]"] (VStr "pkg-e") None].
Proof.
  apply (@entry_has_a_node specHelpers mixedFile _
           (mkEntry [VStr "[*]"] (VStr "pkg-e") None) eq_refl).
  right. right. left. reflexivity.
Defined.

(** X6.  No reference is lost: when the walk returns, whatever the callback
    of a node of the tree pushes on its own is among the entries returned,
    at any depth of the tree. *)
Theorem node_entries_are_returned {helpers : Helpers}
  (ast node : JsVal) (entries pushed : list Entry) :
  findImportsPerAstFile ast = Ok entries ->
  In node (nodesInOrder ast) ->
  visitNode node = Ok pushed ->
  incl pushed entries.
Proof.
  intros Hwalk Hnode Hvisit.
  destruct (findImports_entries _ _ Hwalk) as [ess [Hess ->]].
  destruct (Forall2_In_l _ _ _ _ Hess Hnode) as [pushed' [Hin Hvisit']].
  rewrite Hvisit in Hvisit'. injection Hvisit' as <-.
  intros entry Hentry. apply in_concat. exists pushed. split; assumption.
Qed.

Lemma node_entries_are_returned_witness :
  incl [mkEntry [VStr "[default]"] (VStr "./lazy.js") None]
       [mkEntry [VStr "[default]"] (VStr "./lazy.js") None].
Proof.
  apply (@node_entries_are_returned specHelpers
           (Oxc.program
              [Oxc.constDeclaration "lazy"
                 (Swc.importCall [Swc.argument (Swc.stringLiteral "./lazy.js")])])
           (Swc.importCall [Swc.argument (Swc.stringLiteral "./lazy.js")])).
  - reflexivity.
  - simpl. repeat (try (left; reflexivity); right).
  - reflexivity.
Defined.




(** X8.  The walk only appends: started on an accumulator that already
    holds entries, it returns those entries first, unchanged, followed by
    what the same walk returns from an empty accumulator, and it throws in
    the one case exactly when it throws in the other. *)
Theorem walk_keeps_the_accumulator {helpers : Helpers} (ast : JsVal) (acc : list Entry) :
  oxcTraverse findImportsVisitor ast acc = fmap (app acc) (findImportsPerAstFile ast).
Proof.
  rewrite findImports_by_nodes, oxcTraverse_nodes.
  rewrite (foldM_appending (enterNode findImportsVisitor)) by apply enterNode_pushes.
  replace (fun x => enterNode findImportsVisitor x []) with visitNode by reflexivity.
  now destruct (mapM visitNode (nodesInOrder ast)).
Qed.

Lemma walk_keeps_the_accumulator_witness :
  oxcTraverse (findImportsVisitor (helpers := specHelpers))
    (Oxc.program [Oxc.exportAllDeclaration VNull (Oxc.literal "pkg-e") []])
    [mkEntry [VStr "[file]"] (VStr "./g.js") None]
  = Ok [ mkEntry [VStr "[file]"] (VStr "./g.js") None;
         mkEntry [VStr "[*]"] (VStr "pkg-e") None ].
Proof.
  rewrite (@walk_keeps_the_accumulator specHelpers). reflexivity.
Defined.

(** *** After the walk *)

(** X9.  For the same file, paths and helpers, the result with a falsy
    [keepInternalSources] is the result with a truthy one from which the
    entries with a relative source are dropped, order kept; the two analyses
    throw together; and dropping again from a result already filtered
    changes nothing. *)
Theorem filtered_result_from_kept_result {helpers : Helpers}
  (ast relPath targetPath drop keep : JsVal) :
  truthy drop = false -> truthy keep = true ->
  analyzeFile ast (mkContext relPath (mkCfg targetPath drop))
  = fmap (fun kept => mkResult (dropInternalSources (result kept)))
         (analyzeFile ast (mkContext relPath (mkCfg targetPath keep)))
  /\ (forall filtered,
         analyzeFile ast (mkContext relPath (mkCfg targetPath drop)) = Ok filtered ->
         dropInternalSources (result filtered) = result filtered).
Proof.
  intros Hdrop Hkeep. unfold analyzeFile, dropInternalSources. simpl.
  rewrite Hdrop, Hkeep. simpl.
  destruct (findImportsPerAstFile ast) as [entries|]; simpl.
  - split; [reflexivity|]. intros filtered H. injection H as <-. simpl.
    induction (normalizeSourcePaths entries relPath targetPath) as [|e es IH];
      simpl; [reflexivity|].
    destruct (negb (isRelativeSourcePath (source e))) eqn:He; simpl.
    + now rewrite He, IH.
    + exact IH.
  - split; [reflexivity | discriminate].
Qed.

Lemma filtered_result_from_kept_result_witness :
  analyzeFile (helpers := specHelpers) mixedFile
    (mkContext (VStr "src/file.js") (mkCfg VNull VUndef))
  = fmap (fun kept => mkResult (dropInternalSources (helpers := specHelpers) (result kept)))
         (analyzeFile (helpers := specHelpers) mixedFile
            (mkContext (VStr "src/file.js") (mkCfg VNull (VStr "yes")))).
Proof.
  apply (proj1 (@filtered_result_from_kept_result specHelpers mixedFile
                  (VStr "src/file.js") VNull VUndef (VStr "yes") eq_refl eq_refl)).
Defined.

Lemma existsb_key_absent (key : string) (customConfig : list (string * JsVal)) :
  (forall v, ~ In (key, v) customConfig) ->
  existsb (fun kv => String.eqb key (fst kv)) customConfig = false.
Proof.
  induction customConfig as [|[k v] rest IH]; intros Habsent; simpl; [reflexivity|].
  destruct (String.eqb key k) eqn:Hk; simpl.
  - apply String.eqb_eq in Hk. subst k. destruct (Habsent v). now left.
  - apply IH. intros v' Hin. apply (Habsent v'). now right.
Qed.

Lemma first_binding_found (key : string) (v : JsVal)
  (before after : list (string * JsVal)) :
  ~ In key (map fst before) ->
  existsb (fun kv => String.eqb key (fst kv)) (before ++ (key, v) :: after) = true
  /\ lookup key (before ++ (key, v) :: after) = v.
Proof.
  induction before as [|[k w] before IH]; intros Hfresh; simpl.
  - now rewrite String.eqb_refl.
  - destruct (String.eqb key k) eqn:Hk.
    + apply String.eqb_eq in Hk. subst k. destruct Hfresh. now left.
    + simpl. apply IH. intros Hin. apply Hfresh. now right.
Qed.

(** X15.  The configuration getter keeps the default of every option the
    custom configuration does not set, [keepInternalSources: false] and
    [targetProjectPath: null], whatever other keys it holds; and it takes
    the custom value of an option that is set, at whatever position the key
    stands among the others and also when the value is falsy. *)
Theorem config_defaults_and_overrides :
  (forall customConfig,
      (forall v, ~ In ("keepInternalSources", v) customConfig) ->
      keepInternalSources (config customConfig) = VBool false)
  /\ (forall customConfig,
         (forall v, ~ In ("targetProjectPath", v) customConfig) ->
         targetProjectPath (config customConfig) = VNull)
  /\ (forall before after v,
         ~ In "keepInternalSources" (map fst before) ->
         keepInternalSources (config (before ++ ("keepInternalSources", v) :: after)) = v)
  /\ (forall before after v,
         ~ In "targetProjectPath" (map fst before) ->
         targetProjectPath (config (before ++ ("targetProjectPath", v) :: after)) = v).
Proof.
  unfold config. split; [|split; [|split]].
  - intros customConfig Habsent. cbn [keepInternalSources].
    now rewrite (existsb_key_absent _ _ Habsent).
  - intros customConfig Habsent. cbn [targetProjectPath].
    now rewrite (existsb_key_absent _ _ Habsent).
  - intros before after v Hfresh. cbn [keepInternalSources].
    destruct (first_binding_found _ v before after Hfresh) as [Hfound Hvalue].
    now rewrite Hfound, Hvalue.
  - intros before after v Hfresh. cbn [targetProjectPath].
    destruct (first_binding_found _ v before after Hfresh) as [Hfound Hvalue].
    now rewrite Hfound, Hvalue.
Qed.

Lemma config_defaults_and_overrides_witness :
  keepInternalSources (config [("targetProjectPath", VStr "/repo")]) = VBool false
  /\ targetProjectPath (config [("keepInternalSources", VBool true)]) = VNull
  /\ keepInternalSources
       (config [("targetProjectPath", VStr "/repo"); ("keepInternalSources", VBool true)])
     = VBool true
  /\ targetProjectPath
       (config [("keepInternalSources", VUndef); ("targetProjectPath", VStr "")])
     = VStr "".
Proof.
  destruct config_defaults_and_overrides as [Hkeep [Htarget [Hsetkeep Hsettarget]]].
  split; [|split; [|split]].
  - apply Hkeep. intros v [H | []]. discriminate.
  - apply Htarget. intros v [H | []]. discriminate.
  - apply (Hsetkeep [("targetProjectPath", VStr "/repo")] [] (VBool true)).
    intros [H | []]. discriminate.
  - apply (Hsettarget [("keepInternalSources", VUndef)] [] (VStr "")).
    intros [H | []]. discriminate.
Defined.

(** *** Dynamic imports across shapes *)

(** X14.  For every literal source [s], the statement [import(s)] as oxc
    shapes it and the call [import(s)] as swc shapes it get the same entry,
    [{ importSpecifiers: ['[default]'], source: s }]. *)
Theorem dynamic_import_same_in_both_shapes {helpers : Helpers} (s : string) :
  visitNode (Oxc.expressionStatement (Oxc.importExpression (Oxc.literal s)))
  = visitNode (Swc.importCall [Swc.argument (Swc.stringLiteral s)])
  /\ visitNode (Swc.importCall [Swc.argument (Swc.stringLiteral s)])
     = Ok [mkEntry [VStr "[default]"] (VStr s) None].
Proof.
  rewrite (dynamic_import_visit
             (Oxc.expressionStatement (Oxc.importExpression (Oxc.literal s)))
             (Oxc.literal s)
             (ImportStatement
                (Oxc.expressionStatement (Oxc.importExpression (Oxc.literal s)))
                eq_refl eq_refl)).
  rewrite (dynamic_import_visit
             (Swc.importCall [Swc.argument (Swc.stringLiteral s)])
             (Swc.stringLiteral s)
             (ImportCall (Swc.importCall [Swc.argument (Swc.stringLiteral s)])
                (Swc.argument (Swc.stringLiteral s))
                eq_refl eq_refl eq_refl eq_refl)).
  split; reflexivity.
Qed.

(** X16.  The call callback looks for the source under
    [arguments[0].expression].  When the first argument is the expression
    itself, without that wrapper (no [expression] key), the entry is pushed
    with source [[variable]], even for a string literal. *)
Theorem unwrapped_argument_is_variable {helpers : Helpers}
  (node argument0 : JsVal) :
  prop node "type" = VStr "CallExpression" ->
  strictEqStr (optProp (prop node "callee") "type") "Import" = true ->
  getIndex0 (prop node "arguments") = Ok argument0 ->
  nullish argument0 = false ->
  prop argument0 "expression" = VUndef ->
  visitNode node = Ok [mkEntry [VStr "[default]"] (VStr "[variable]") None].
Proof.
  intros Htype Hcallee Hargument Hdefined Hunwrapped.
  rewrite (dynamic_import_visit node (prop argument0 "expression")
             (ImportCall node argument0 Htype Hcallee Hargument Hdefined)).
  now rewrite Hunwrapped.
Qed.

Lemma unwrapped_argument_is_variable_witness :
  visitNode (helpers := specHelpers) (Swc.importCall [Swc.stringLiteral "./b.js"])
  = Ok [mkEntry [VStr "[default]"] (VStr "[variable]") None].
Proof.
  apply (@unwrapped_argument_is_variable specHelpers
           (Swc.importCall [Swc.stringLiteral "./b.js"]) (Swc.stringLiteral "./b.js"));
    reflexivity.
Defined.
